(** * Financial-Modeling-of-Stocks

    A shallow embedding of [Final_Project.py]: the price/volume frame, the
    live-data merge ([update_df]), the indicator step ([get_indicator_data]),
    the signal rule ([predict_signal]), the display scale
    ([calculate_scale_value]), the live fetch ([get_live]) and the monitoring
    loop of [main], followed by the properties proved about them.

    Conventions.
    - A Python [float] / [numpy.float64] is a binary64 value: Rocq's primitive
      [float]. pandas' "missing" marker is [nan].
    - A naive [datetime64[ns]] is its count of nanoseconds, a [Z].
    - Code that can raise runs in the [result] monad; [try/except] is a match
      on the result. *)

From Stdlib Require Import ZArith Floats Uint63 Bool.
From stdpp Require Import gmap strings list sorting.

Open Scope Z_scope.

(* ===================================================================== *)
(** * Part I. The model                                                    *)
(* ===================================================================== *)

(** ** Python exceptions and the result monad *)

Inductive exn :=
| KeyError (key : string)
| TypeError
| IndexError
| ValueError (msg : string)
| RuntimeError (msg : string)
| LibraryError (msg : string)  (* any other subclass of Exception (pandas, ta, yfinance) *)
| KeyboardInterrupt.           (* a BaseException that is not an Exception *)

(** [except Exception] catches everything but [KeyboardInterrupt]; a bare
    [except:] catches everything. *)
Definition is_Exception (e : exn) : bool :=
  match e with KeyboardInterrupt => false | _ => true end.

Inductive result (A : Type) :=
| Ok (a : A)
| Raise (e : exn).
Arguments Ok {A} a.
Arguments Raise {A} e.

Definition bind {A B : Type} (m : result A) (k : A → result B) : result B :=
  match m with
  | Ok a => k a
  | Raise e => Raise e
  end.

Notation "x <- m ;; k" := (bind m (λ x, k))
  (at level 100, m at next level, right associativity).

(** Python's short-circuit [and] on conditions that may raise: the right
    operand is not evaluated (so cannot raise) when the left one is false. *)
Definition py_and (a b : result bool) : result bool :=
  match a with
  | Ok true => b
  | Ok false => Ok false
  | Raise e => Raise e
  end.

(** ** Values found in a row *)

Inductive pyval :=
| PyFloat (f : float)
| PyInt (z : Z)
| PyTimestamp (ns : Z)
| PyNone.

(** Conversion of an integer to binary64 (exact below 2^53, the range of the
    literals and volumes met here). *)
Definition float_of_Z (z : Z) : float :=
  match z with
  | Z0 => PrimFloat.zero
  | Zpos _ => PrimFloat.of_uint63 (Uint63.of_Z z)
  | Zneg p => PrimFloat.opp (PrimFloat.of_uint63 (Uint63.of_Z (Zpos p)))
  end.

(** Rich comparisons. Numbers compare with numbers (an int meeting a float is
    converted), timestamps with timestamps; anything else is a [TypeError].
    A comparison with [nan] is [false]: that is [PrimFloat.ltb]/[leb]. *)
Definition py_cmp (fop : float → float → bool) (zop : Z → Z → bool)
    (a b : pyval) : result bool :=
  match a, b with
  | PyFloat x, PyFloat y => Ok (fop x y)
  | PyFloat x, PyInt y => Ok (fop x (float_of_Z y))
  | PyInt x, PyFloat y => Ok (fop (float_of_Z x) y)
  | PyInt x, PyInt y => Ok (zop x y)
  | PyTimestamp x, PyTimestamp y => Ok (zop x y)
  | _, _ => Raise TypeError
  end.

Definition py_lt : pyval → pyval → result bool := py_cmp PrimFloat.ltb Z.ltb.
Definition py_le : pyval → pyval → result bool := py_cmp PrimFloat.leb Z.leb.
Definition py_gt : pyval → pyval → result bool :=
  py_cmp (λ x y, PrimFloat.ltb y x) Z.gtb.
Definition py_ge : pyval → pyval → result bool :=
  py_cmp (λ x y, PrimFloat.leb y x) Z.geb.

(** [row[key]] on a pandas Series (or a dict): [KeyError] when absent. *)
Definition getitem (row : gmap string pyval) (key : string) : result pyval :=
  match row !! key with
  | Some v => Ok v
  | None => Raise (KeyError key)
  end.

(** ** Signals: [predict_signal] *)

Inductive Signal := BUY | SELL | HOLD.

(** The condition of line 145. *)
Definition buy_rule (row : gmap string pyval) : result bool :=
  py_and (m <- getitem row "MACD";; py_gt m (PyInt 0))
    (py_and (r <- getitem row "RSI_14";; py_lt r (PyInt 40))
            (a <- getitem row "Adj_Close";;
             l <- getitem row "Bollinger_Lower";; py_le a l)).

(** The condition of line 147. *)
Definition sell_rule (row : gmap string pyval) : result bool :=
  py_and (m <- getitem row "MACD";; py_lt m (PyInt 0))
    (py_and (r <- getitem row "RSI_14";; py_gt r (PyInt 60))
            (a <- getitem row "Adj_Close";;
             u <- getitem row "Bollinger_Upper";; py_ge a u)).

(** The body of the [try] block, lines 145-149. *)
Definition predict_signal_body (row : gmap string pyval) : result Signal :=
  buy <- buy_rule row;;
  if buy then Ok BUY
  else
    sell <- sell_rule row;;
    if sell then Ok SELL else Ok HOLD.

(** [try: ... except: return "HOLD"]. *)
Definition predict_signal (row : gmap string pyval) : Signal :=
  match predict_signal_body row with
  | Ok s => s
  | Raise _ => HOLD
  end.

(** ** Frames

    A row of the program's DataFrame. The three base columns come from the
    data source; the seven derived columns are written by
    [get_indicator_data]. A derived column that a frame does not have (yet)
    reads [nan], which is also what [pd.concat] puts there when only one of
    the two frames has the column. *)
Record Row := mkRow {
  Date : Z;              (* naive datetime64[ns] *)
  Adj_Close : float;
  Volume : Z;            (* int64 *)
  SMA_20 : float;
  Bollinger_Upper : float;
  Bollinger_Lower : float;
  RSI_14 : float;
  MACD : float;
  MACD_Signal : float;
  MACD_Diff : float
}.

Abbreviation DataFrame := (list Row).

(** A row of the three base columns only. *)
Definition price_row (date : Z) (adj_close : float) (volume : Z) : Row :=
  mkRow date adj_close volume nan nan nan nan nan nan nan.

Definition set_SMA_20 (x : float) (r : Row) : Row :=
  mkRow (Date r) (Adj_Close r) (Volume r) x (Bollinger_Upper r)
        (Bollinger_Lower r) (RSI_14 r) (MACD r) (MACD_Signal r) (MACD_Diff r).
Definition set_Bollinger_Upper (x : float) (r : Row) : Row :=
  mkRow (Date r) (Adj_Close r) (Volume r) (SMA_20 r) x
        (Bollinger_Lower r) (RSI_14 r) (MACD r) (MACD_Signal r) (MACD_Diff r).
Definition set_Bollinger_Lower (x : float) (r : Row) : Row :=
  mkRow (Date r) (Adj_Close r) (Volume r) (SMA_20 r) (Bollinger_Upper r)
        x (RSI_14 r) (MACD r) (MACD_Signal r) (MACD_Diff r).
Definition set_RSI_14 (x : float) (r : Row) : Row :=
  mkRow (Date r) (Adj_Close r) (Volume r) (SMA_20 r) (Bollinger_Upper r)
        (Bollinger_Lower r) x (MACD r) (MACD_Signal r) (MACD_Diff r).
Definition set_MACD (x : float) (r : Row) : Row :=
  mkRow (Date r) (Adj_Close r) (Volume r) (SMA_20 r) (Bollinger_Upper r)
        (Bollinger_Lower r) (RSI_14 r) x (MACD_Signal r) (MACD_Diff r).
Definition set_MACD_Signal (x : float) (r : Row) : Row :=
  mkRow (Date r) (Adj_Close r) (Volume r) (SMA_20 r) (Bollinger_Upper r)
        (Bollinger_Lower r) (RSI_14 r) (MACD r) x (MACD_Diff r).
Definition set_MACD_Diff (x : float) (r : Row) : Row :=
  mkRow (Date r) (Adj_Close r) (Volume r) (SMA_20 r) (Bollinger_Upper r)
        (Bollinger_Lower r) (RSI_14 r) (MACD r) (MACD_Signal r) x.

(** [df[col] = values]: the values are written by position; a position the
    values do not cover reads [nan]. *)
Definition assign_column (set : float → Row → Row) (values : list float)
    (d : DataFrame) : DataFrame :=
  imap (λ i r, set (default nan (values !! i)) r) d.

(** [df.iloc[-1]]: the last row as a Series, [IndexError] on an empty frame. *)
Definition to_series (r : Row) : gmap string pyval :=
  list_to_map
    [("Date", PyTimestamp (Date r)); ("Adj_Close", PyFloat (Adj_Close r));
     ("Volume", PyInt (Volume r)); ("SMA_20", PyFloat (SMA_20 r));
     ("Bollinger_Upper", PyFloat (Bollinger_Upper r));
     ("Bollinger_Lower", PyFloat (Bollinger_Lower r));
     ("RSI_14", PyFloat (RSI_14 r)); ("MACD", PyFloat (MACD r));
     ("MACD_Signal", PyFloat (MACD_Signal r));
     ("MACD_Diff", PyFloat (MACD_Diff r))].

Definition iloc_last (d : DataFrame) : result (gmap string pyval) :=
  match last d with
  | Some r => Ok (to_series r)
  | None => Raise IndexError
  end.

(** ** Order on dates *)

Definition date_le (a b : Row) : Prop := Date a ≤ Date b.
Definition date_lt (a b : Row) : Prop := Date a < Date b.

(** Ascending by date; strictly ascending is the Series Store invariant
    (dates unique and increasing with the index). *)
Definition ascending (d : DataFrame) : Prop := Sorted date_le d.
Definition strictly_ascending (d : DataFrame) : Prop := Sorted date_lt d.

(** The rows of a frame that carry a given date, in frame order. *)
Definition rows_on (date : Z) (d : DataFrame) : DataFrame :=
  filter (λ r, Date r = date) d.

(** What [DataFrame.sort_values('Date')] promises whatever its [kind]: the
    same rows, ascending by date. *)
Record sorts_by_date (sort_values : DataFrame → DataFrame) : Prop := {
  sort_values_perm : ∀ d, sort_values d ≡ₚ d;
  sort_values_ascending : ∀ d, ascending (sort_values d)
}.

(** What only [kind='stable'] (or ['mergesort']) adds: rows of equal date keep
    their relative order. The default [kind='quicksort'] does not promise it. *)
Definition keeps_tie_order (sort_values : DataFrame → DataFrame) : Prop :=
  ∀ d date, rows_on date (sort_values d) = rows_on date d.

(** [drop_duplicates('Date', keep='last')]: of the rows sharing a date only
    the last one stays; the order of the rows kept is unchanged. *)
Fixpoint drop_duplicates_last (d : DataFrame) : DataFrame :=
  match d with
  | [] => []
  | r :: rest =>
      if bool_decide (Exists (λ r', Date r' = Date r) rest)
      then drop_duplicates_last rest
      else r :: drop_duplicates_last rest
  end.

(** ** [calculate_scale_value] *)

(** [Series.max()] of a float column: missing values are skipped; [nan] when
    nothing is left. *)
Definition float_max (a b : float) : float :=
  if PrimFloat.ltb a b then b else a.

Definition series_max (xs : list float) : float :=
  match filter (λ x, PrimFloat.is_nan x = false) xs with
  | [] => nan
  | x :: rest => foldl float_max x rest
  end.

(** [Series.max()] of an int64 column, as the float the division turns it
    into; [nan] for an empty column. *)
Definition int_series_max (xs : list Z) : float :=
  match xs with
  | [] => nan
  | x :: rest => float_of_Z (foldl Z.max x rest)
  end.

(** Division of two numpy scalars. It follows IEEE 754: a zero divisor gives
    [inf] or [nan] (numpy prints a RuntimeWarning) and nothing is raised. *)
Definition np_truediv (a b : float) : result float := Ok (PrimFloat.div a b).

(** Lines 43-48. Both columns exist in every frame of this model, so the
    [except] branch is left to an exception of the division itself. *)
Definition calculate_scale_value (df : DataFrame) : float :=
  match np_truediv (series_max (Adj_Close <$> df))
                   (int_series_max (Volume <$> df)) with
  | Ok scale => scale
  | Raise _ => 0x1.a36e2eb1c432dp-14%float   (* 0.0001 *)
  end.

(** ** The indicator library

    The [ta] package is not part of the repository: its indicator series are
    taken as functions from the close prices (and the window arguments the
    program passes) to one value per row. *)
Record TA := {
  sma_indicator : list float → Z → list float;
  bollinger_hband : list float → Z → Z → list float;
  bollinger_lband : list float → Z → Z → list float;
  rsi : list float → Z → list float;
  macd : list float → Z → Z → Z → list float;
  macd_signal : list float → Z → Z → Z → list float;
  macd_diff : list float → Z → Z → Z → list float
}.

(** ** The object store

    DataFrames are Python objects: a function receives a reference, and
    [df[col] = ...] writes into the object the name is bound to. *)
Abbreviation Store := (gmap nat DataFrame).

Definition deref (h : Store) (l : nat) : DataFrame := default [] (h !! l).

(** A new object, at a reference nothing else holds. *)
Definition alloc (d : DataFrame) (h : Store) : nat * Store :=
  let l := fresh (dom h) in (l, <[l := d]> h).

(** [df[col] = values] on the object at [l]. *)
Definition setitem (set : float → Row → Row) (values : list float) (l : nat)
    (h : Store) : Store :=
  alter (assign_column set values) l h.

Definition timedelta_days (n : Z) : Z := n * 86400000000000.

Section Program.

Context (sort_values : DataFrame → DataFrame) (ta : TA).

(** *** [get_indicator_data], lines 50-73.
    [today] is the reading of [datetime.today()] at line 69. *)
Definition get_indicator_data (today : Z) (df : nat) (h : Store)
    : nat * Store :=
  (* df = df.sort_values('Date'): the name is re-bound to a new frame *)
  let '(df, h) := alloc (sort_values (deref h df)) h in
  let h := setitem set_SMA_20
             (sma_indicator ta (Adj_Close <$> deref h df) 20) df h in
  (* bollinger = ta.volatility.BollingerBands(df['Adj_Close'], 20, 2) *)
  let bollinger_close := Adj_Close <$> deref h df in
  let h := setitem set_Bollinger_Upper
             (bollinger_hband ta bollinger_close 20 2) df h in
  let h := setitem set_Bollinger_Lower
             (bollinger_lband ta bollinger_close 20 2) df h in
  let h := setitem set_RSI_14 (rsi ta (Adj_Close <$> deref h df) 14) df h in
  (* macd = ta.trend.MACD(df['Adj_Close'], 26, 12, 9) *)
  let macd_close := Adj_Close <$> deref h df in
  let h := setitem set_MACD (macd ta macd_close 26 12 9) df h in
  let h := setitem set_MACD_Signal (macd_signal ta macd_close 26 12 9) df h in
  let h := setitem set_MACD_Diff (macd_diff ta macd_close 26 12 9) df h in
  let one_year_ago := today - timedelta_days 365 in
  (* df = df[df['Date'] >= one_year_ago].reset_index(drop=True) *)
  alloc (filter (λ r, one_year_ago ≤ Date r) (deref h df)) h.

(** The frame a call returns, for a caller that holds frames by value. *)
Definition indicator_frame (today : Z) (d : DataFrame) : DataFrame :=
  let '(df, h) := alloc d ∅ in
  let '(out, h) := get_indicator_data today df h in
  deref h out.

(** *** [update_df], lines 131-140. [pd.concat([df, live_df])] puts the
    rows of [live_df] after those of [df]. *)
Definition update_df (df : DataFrame) (live_df : option DataFrame)
    : DataFrame :=
  match live_df with
  | None => df
  | Some [] => df                       (* live_df.empty *)
  | Some live =>
      let combined := df ++ live in
      drop_duplicates_last (sort_values combined)
  end.

End Program.

(** ** The market data source

    What [yf.Ticker(t).history(...)] hands back: one quote per trading day.
    [q_Close] is the column named ['Close']; [q_Adj_Close] is the column named
    ['Adj Close'] (or ['Adj.Close']), present when [columns] says so. The
    stored instant of [q_Date] is the same before and after
    [tz_convert(None)]. *)
Record Quote := {
  q_Date : Z;
  q_Open : float;
  q_High : float;
  q_Low : float;
  q_Close : float;
  q_Adj_Close : float;
  q_Volume : Z
}.

Record History := {
  columns : list string;
  tz : option string;
  quotes : list Quote
}.

Definition has_column (h : History) (c : string) : bool :=
  bool_decide (c ∈ columns h).

(** [df[['Date', c, 'Volume']]] raises [KeyError] for a column that is not
    there. *)
Definition require_columns (h : History) (cs : list string) : result unit :=
  match filter (λ c, has_column h c = false) cs with
  | [] => Ok tt
  | c :: _ => Raise (KeyError c)
  end.

(** *** [get_stock_data], lines 10-41. [fetched] is the outcome of
    [ticker.history(start, end, auto_adjust=False)]. Whatever goes wrong is
    re-raised as a [RuntimeError] whose message quotes the cause. *)
Definition get_stock_data (fetched : result History) : result DataFrame :=
  let body :=
    h <- fetched;;
    match quotes h with
    | [] => Raise (ValueError "No data found")
    | qs =>
        match filter (has_column h) ["Adj Close"; "Adj.Close"] with
        | [] => Raise (ValueError "Adjusted Close column not found")
        | adj_close_col :: _ =>
            _ <- require_columns h ["Date"; adj_close_col; "Volume"];;
            Ok ((λ q, price_row (q_Date q) (q_Adj_Close q) (q_Volume q)) <$> qs)
        end
    end in
  match body with
  | Ok df => Ok df
  | Raise e =>
      if is_Exception e then Raise (RuntimeError "Error fetching stock data")
      else Raise e
  end.

(** ** Console output and waiting *)
Inductive event :=
| PrintSignal (now : Z) (ticker : string) (signal : Signal)
    (* "[<now>] <ticker> Signal: <signal>" *)
| PrintLiveDataError (e : exn)      (* "Live data error: <e>" *)
| PrintMonitoringError (e : exn)    (* "Monitoring error: <e>" *)
| PrintMonitoringStopped            (* "Monitoring stopped." *)
| Sleep (seconds : Z).

(** *** [get_live], lines 104-129. [fetched] is the outcome of
    [ticker_obj.history(period='2d', interval='1d')]. An [Exception] is
    printed and turned into [None]; a [KeyboardInterrupt] passes through. *)
Definition get_live (fetched : result History)
    : result (option DataFrame) * list event :=
  let body :=
    h <- fetched;;
    match quotes h with
    | [] => Ok None
    | qs =>
        _ <- require_columns h ["Date"; "Close"; "Volume"];;
        (* live_df.rename(columns={'Close': 'Adj_Close'}) *)
        Ok (Some ((λ q, price_row (q_Date q) (q_Close q) (q_Volume q)) <$> qs))
    end in
  match body with
  | Ok live_df => (Ok live_df, [])
  | Raise e =>
      if is_Exception e then (Ok None, [PrintLiveDataError e])
      else (Raise e, [])
  end.

(** ** The monitoring loop of [main], lines 167-186

    One [Tick] is what the outside world does during one pass of the loop. *)
Record Tick := {
  fetched : result History;         (* the live fetch of this pass *)
  library_fault : option exn;       (* raised by pandas/ta at line 171, if any *)
  today : Z;                        (* datetime.today() at line 69 *)
  now : Z;                          (* datetime.now() at line 176 *)
  interrupted : bool;               (* Ctrl+C during the sleep of line 179 *)
  handler_interrupted : bool        (* Ctrl+C during the sleep of line 186 *)
}.

Inductive status :=
| Running             (* still inside [while True] *)
| Stopped             (* left through [break] *)
| Escaped (e : exn).  (* an exception left the loop *)

Section Monitor.

Context (sort_values : DataFrame → DataFrame) (ta : TA) (ticker : string).

(** The [try] block, lines 169-179: its outcome, the value the variable
    [df] is left with, and what was printed and slept. *)
Definition iteration (tk : Tick) (df : DataFrame)
    : result unit * DataFrame * list event :=
  match get_live (fetched tk) with
  | (Raise e, out) => (Raise e, df, out)
  | (Ok live_data, out) =>
      let df := update_df sort_values df live_data in
      match library_fault tk with
      | Some e => (Raise e, df, out)
      | None =>
          let df := indicator_frame sort_values ta (today tk) df in
          match iloc_last df with
          | Raise e => (Raise e, df, out)
          | Ok latest =>
              let signal := predict_signal latest in
              let out := out ++ [PrintSignal (now tk) ticker signal; Sleep 60] in
              if interrupted tk then (Raise KeyboardInterrupt, df, out)
              else (Ok tt, df, out)
          end
      end
  end.

(** [while True: try: ... except KeyboardInterrupt: ... break
    except Exception as e: print(...); time.sleep(60)]. *)
Fixpoint monitor (ticks : list Tick) (df : DataFrame)
    : status * DataFrame * list event :=
  match ticks with
  | [] => (Running, df, [])
  | tk :: rest =>
      match iteration tk df with
      | (Ok _, df, out) =>
          let '(st, df, out') := monitor rest df in (st, df, out ++ out')
      | (Raise KeyboardInterrupt, df, out) =>
          (Stopped, df, out ++ [PrintMonitoringStopped])
      | (Raise e, df, out) =>
          let out := out ++ [PrintMonitoringError e; Sleep 60] in
          if handler_interrupted tk then (Escaped KeyboardInterrupt, df, out)
          else let '(st, df, out') := monitor rest df in (st, df, out ++ out')
      end
  end.

End Monitor.

(** Whether the user pressed Ctrl+C at some point of the pass. *)
Definition ctrl_c (tk : Tick) : bool :=
  interrupted tk || handler_interrupted tk ||
  match fetched tk with Raise KeyboardInterrupt => true | _ => false end ||
  match library_fault tk with Some KeyboardInterrupt => true | _ => false end.

Definition is_wait (e : event) : bool :=
  match e with Sleep _ => true | _ => false end.

(** How many times the output reached a [time.sleep]. *)
Definition waits (out : list event) : nat := length (filter is_wait out).

(** ** [plot_stock_plotly], lines 75-102

    The figure is what the five [add_trace] calls put into it: four lines on
    the price panel and the volume bars on the panel below. Layout options
    (hover mode, legend) carry no data and are left out. *)
Record Trace := {
  trace_kind : string;           (* "Scatter" or "Bar" *)
  trace_name : string;
  trace_color : string;
  trace_dash : bool;             (* line=dict(..., dash='dash') *)
  trace_panel : Z;               (* row of the subplot *)
  trace_x : list Z;
  trace_y : list float
}.

Record Figure := {
  title : string;
  traces : list Trace
}.

(** [df['Volume'] * scale_value]: an int64 column times a float. *)
Definition scaled_volume (scale_value : float) (df : DataFrame) : list float :=
  (λ r, PrimFloat.mul (float_of_Z (Volume r)) scale_value) <$> df.

Definition plot_stock_plotly (df : DataFrame) (ticker : string)
    (scale_value : float) : Figure :=
  let x := Date <$> df in
  {| title := ticker +:+ " Technical Analysis";
     traces :=
       [ {| trace_kind := "Scatter"; trace_name := "Price";
            trace_color := "blue"; trace_dash := false; trace_panel := 1;
            trace_x := x; trace_y := Adj_Close <$> df |};
         {| trace_kind := "Scatter"; trace_name := "20 SMA";
            trace_color := "orange"; trace_dash := false; trace_panel := 1;
            trace_x := x; trace_y := SMA_20 <$> df |};
         {| trace_kind := "Scatter"; trace_name := "Upper Band";
            trace_color := "green"; trace_dash := true; trace_panel := 1;
            trace_x := x; trace_y := Bollinger_Upper <$> df |};
         {| trace_kind := "Scatter"; trace_name := "Lower Band";
            trace_color := "red"; trace_dash := true; trace_panel := 1;
            trace_x := x; trace_y := Bollinger_Lower <$> df |};
         {| trace_kind := "Bar"; trace_name := "Volume";
            trace_color := "grey"; trace_dash := false; trace_panel := 2;
            trace_x := x; trace_y := scaled_volume scale_value df |} ] |}.

(** ** [main], lines 153-190

    What the session does around the loop. [typed_ticker] is the outcome of
    [input(...).strip().upper()]; [history_fetch] that of the two-year
    history request; [plot_fault] is an exception of plotly at line 163, if
    any; [passes] are the passes of the loop until the observation ends. *)
Record Session := {
  typed_ticker : result string;
  history_fetch : result History;
  startup_today : Z;                (* datetime.today() at line 69, first call *)
  plot_fault : option exn;
  passes : list Tick
}.

Inductive console :=
| PrintInitializing (ticker : string)  (* "Initializing analysis for <ticker>..." *)
| ShowFigure (fig : Figure)            (* fig.show() *)
| PrintStarting                        (* "Starting live monitoring (Ctrl+C to exit)..." *)
| PrintFatalError (e : exn)            (* "Fatal error: <e>" *)
| Monitoring (ev : event).             (* a line or wait of the loop *)

Inductive outcome :=
| ExitCode (code : Z)   (* the process ended: 0 after [main] returns, 1 by sys.exit(1) *)
| StillMonitoring       (* the loop is running when the observation ends *)
| Uncaught (e : exn).   (* an exception left [main] *)

Section Main.

Context (sort_values : DataFrame → DataFrame) (ta : TA).

(** Lines 156-166: the ticker and the frame the loop starts from. *)
Definition startup (s : Session) : result (string * DataFrame) * list console :=
  match typed_ticker s with
  | Raise e => (Raise e, [])
  | Ok ticker =>
      let out := [PrintInitializing ticker] in
      match get_stock_data (history_fetch s) with
      | Raise e => (Raise e, out)
      | Ok df =>
          let scale_value := calculate_scale_value df in
          let df := indicator_frame sort_values ta (startup_today s) df in
          match plot_fault s with
          | Some e => (Raise e, out)
          | None =>
              let fig := plot_stock_plotly df ticker scale_value in
              (Ok (ticker, df), out ++ [ShowFigure fig; PrintStarting])
          end
      end
  end.

(** [except Exception as e: print(f"Fatal error: ..."); sys.exit(1)]. *)
Definition fatal (e : exn) (out : list console) : outcome * list console :=
  if is_Exception e then (ExitCode 1, out ++ [PrintFatalError e])
  else (Uncaught e, out).

Definition main (s : Session) : outcome * list console :=
  match startup s with
  | (Raise e, out) => fatal e out
  | (Ok (ticker, df), out) =>
      let '(st, _, events) := monitor sort_values ta ticker (passes s) df in
      let out := out ++ (Monitoring <$> events) in
      match st with
      | Running => (StillMonitoring, out)
      | Stopped => (ExitCode 0, out)
      | Escaped e => fatal e out
      end
  end.

End Main.

(** ** The sort pandas runs by default

    [sort_values('Date')] is called without [kind], so pandas sorts the date
    column with numpy's [argsort(kind='quicksort')]: an introsort over the
    array [tosort] of row positions, with a median-of-three partition and an
    insertion sort for ranges of at most 17 entries. [v] is the date column;
    [pl], [pr], [pm], [pi], [pj], [pk] are positions in [tosort]. *)
Section Argsort.

Context (v : list Z).

Definition key_at (tosort : list nat) (p : nat) : Z := v !!! (tosort !!! p).

(** [INTP_SWAP] of the entries at positions [p] and [q]. *)
Definition intp_swap (p q : nat) (tosort : list nat) : list nat :=
  <[p := tosort !!! q]> (<[q := tosort !!! p]> tosort).

(** [do { ++pi; } while (v[*pi] < vp);] *)
Fixpoint scan_up (fuel : nat) (a : list nat) (vp : Z) (pi : nat) : nat :=
  match fuel with
  | O => pi
  | S fuel =>
      if key_at a (S pi) <? vp then scan_up fuel a vp (S pi) else S pi
  end.

(** [do { --pj; } while (vp < v[*pj]);] *)
Fixpoint scan_down (fuel : nat) (a : list nat) (vp : Z) (pj : nat) : nat :=
  match fuel with
  | O => pj
  | S fuel =>
      if vp <? key_at a (pred pj) then scan_down fuel a vp (pred pj)
      else pred pj
  end.

(** The [for (;;)] loop of the partition; returns the array and [pi]. *)
Fixpoint partition_loop (fuel : nat) (a : list nat) (vp : Z) (pi pj : nat)
    : list nat * nat :=
  match fuel with
  | O => (a, pi)
  | S fuel =>
      let pi := scan_up (length a) a vp pi in
      let pj := scan_down (length a) a vp pj in
      if bool_decide (pj ≤ pi)%nat then (a, pi)
      else partition_loop fuel (intp_swap pi pj a) vp pi pj
  end.

(** One partition of the range [pl..pr]: returns the array and the final
    position [pi] of the pivot. *)
Definition partition (a : list nat) (pl pr : nat) : list nat * nat :=
  let pm := (pl + (pr - pl) / 2)%nat in
  let a := if key_at a pm <? key_at a pl then intp_swap pm pl a else a in
  let a := if key_at a pr <? key_at a pm then intp_swap pr pm a else a in
  let a := if key_at a pm <? key_at a pl then intp_swap pm pl a else a in
  let vp := key_at a pm in
  let pi := pl in
  let pj := (pr - 1)%nat in
  let a := intp_swap pm pj a in
  let '(a, pi) := partition_loop (length a) a vp pi pj in
  let pk := (pr - 1)%nat in
  (intp_swap pi pk a, pi).

(** [while (pj > pl && vp < v[*pk]) { *pj-- = *pk--; } *pj = vi;] *)
Fixpoint insert_hole (fuel : nat) (a : list nat) (pl vi : nat) (vp : Z)
    (pj : nat) : list nat :=
  match fuel with
  | O => <[pj := vi]> a
  | S fuel =>
      if bool_decide (pl < pj)%nat && (vp <? key_at a (pred pj)) then
        insert_hole fuel (<[pj := a !!! pred pj]> a) pl vi vp (pred pj)
      else <[pj := vi]> a
  end.

(** [for (pi = pl + 1; pi <= pr; ++pi)]. *)
Fixpoint insertion_from (count : nat) (a : list nat) (pl pi : nat)
    : list nat :=
  match count with
  | O => a
  | S count =>
      let vi := a !!! pi in
      insertion_from count (insert_hole (length a) a pl vi (v !!! vi) pi)
                     pl (S pi)
  end.

Definition insertion_sort (a : list nat) (pl pr : nat) : list nat :=
  insertion_from (pr - pl) a pl (S pl).

(** The outer loop with its explicit stack of pending ranges, each with
    the depth budget it was pushed with. A range popped with a negative
    budget goes to heapsort in numpy; that fallback is not modelled
    ([None]), nor is running out of [fuel]. *)
Fixpoint introsort (fuel : nat) (a : list nat) (pl pr : nat) (cdepth : Z)
    (stack : list (nat * nat * Z)) : option (list nat) :=
  match fuel with
  | O => None
  | S fuel =>
      if bool_decide (16 < pr - pl)%nat then
        let '(a, pi) := partition a pl pr in
        let cdepth := cdepth - 1 in
        (* push largest partition on stack *)
        if bool_decide (pi - pl < pr - pi)%nat
        then introsort fuel a pl (pi - 1)%nat cdepth
                       ((S pi, pr, cdepth) :: stack)
        else introsort fuel a (S pi) pr cdepth
                       ((pl, (pi - 1)%nat, cdepth) :: stack)
      else
        let a := insertion_sort a pl pr in
        match stack with
        | [] => Some a
        | (pl, pr, cdepth) :: stack =>
            if cdepth <? 0 then None
            else introsort fuel a pl pr cdepth stack
        end
  end.

Definition argsort_quicksort : option (list nat) :=
  match length v with
  | O => Some []
  | S m =>
      let num := S m in
      introsort (2 * num + 2) (seq 0 num) 0 m (2 * Z.log2 (Z.of_nat num)) []
  end.

End Argsort.

(** [df.sort_values('Date')] with the default [kind]: the rows taken in the
    order [argsort] gives. *)
Definition quicksort_values (d : DataFrame) : option DataFrame :=
  idx ← argsort_quicksort (Date <$> d); mapM (λ i, d !! i) idx.

Definition sort_values_default (d : DataFrame) : DataFrame :=
  default d (quicksort_values d).

(** [df.sort_values('Date', kind='stable')], for comparison: insertion of
    each row after the rows of the same or an earlier date. *)
Fixpoint insert_by_date (r : Row) (d : DataFrame) : DataFrame :=
  match d with
  | [] => [r]
  | r' :: rest =>
      if bool_decide (Date r < Date r') then r :: d
      else r' :: insert_by_date r rest
  end.

Definition sort_values_stable (d : DataFrame) : DataFrame :=
  foldl (λ sorted r, insert_by_date r sorted) [] d.

(** ** Derived views used to state the properties *)

(** What [df[col] = values] leaves in the column of a frame of [n] rows. *)
Definition column_values (values : list float) (n : nat) : list float :=
  (λ i, default nan (values !! i)) <$> seq 0 n.

(** The seven column assignments of lines 55-66 applied to a frame, each
    indicator being fed the close column of that very frame. *)
Definition indicator_columns (ta : TA) (d : DataFrame) : DataFrame :=
  let close := Adj_Close <$> d in
  assign_column set_MACD_Diff (macd_diff ta close 26 12 9)
    (assign_column set_MACD_Signal (macd_signal ta close 26 12 9)
      (assign_column set_MACD (macd ta close 26 12 9)
        (assign_column set_RSI_14 (rsi ta close 14)
          (assign_column set_Bollinger_Lower (bollinger_lband ta close 20 2)
            (assign_column set_Bollinger_Upper (bollinger_hband ta close 20 2)
              (assign_column set_SMA_20 (sma_indicator ta close 20) d)))))).

(** The rows the last line of [get_indicator_data] keeps. *)
Definition in_window (today : Z) (r : Row) : Prop :=
  today - timedelta_days 365 ≤ Date r.

#[global] Instance in_window_dec today r : Decision (in_window today r) :=
  decide (today - timedelta_days 365 ≤ Date r).

(** A stand-in for [ta]: every indicator is the close offset by a constant,
    enough to tell the columns apart. *)
Definition toy_indicator (k : float) (close : list float) : list float :=
  (λ x, PrimFloat.add x k) <$> close.

Definition toy_ta : TA :=
  {| sma_indicator := λ close _, toy_indicator 1 close;
     bollinger_hband := λ close _ _, toy_indicator 2 close;
     bollinger_lband := λ close _ _, toy_indicator 3 close;
     rsi := λ close _, toy_indicator 4 close;
     macd := λ close _ _ _, toy_indicator 5 close;
     macd_signal := λ close _ _ _, toy_indicator 6 close;
     macd_diff := λ close _ _ _, toy_indicator 7 close |}.

(** Another stand-in, sensitive to how much history it is given: every
    indicator is the running sum of the closes. *)
Definition running_sum (close : list float) : list float :=
  (λ n, foldl PrimFloat.add 0%float (take n close)) <$> seq 1 (length close).

Definition running_ta : TA :=
  {| sma_indicator := λ close _, running_sum close;
     bollinger_hband := λ close _ _, running_sum close;
     bollinger_lband := λ close _ _, running_sum close;
     rsi := λ close _, running_sum close;
     macd := λ close _ _ _, running_sum close;
     macd_signal := λ close _ _ _, running_sum close;
     macd_diff := λ close _ _ _, running_sum close |}.

(** The three columns that come from the data source. *)
Definition base_columns (r : Row) : Z * float * Z :=
  (Date r, Adj_Close r, Volume r).

(** Two frames that agree, row by row, on the base columns. *)
Definition same_base (d1 d2 : DataFrame) : Prop :=
  Forall2 (λ a b, base_columns a = base_columns b) d1 d2.

(** What a pass can print: a fetch error, a signal, a wait. *)
Definition pass_line (ev : event) : Prop :=
  match ev with
  | PrintLiveDataError _ | PrintSignal _ _ _ | Sleep _ => True
  | _ => False
  end.

(** ** Sample rows and frames used by the examples below *)

(** macd=1.5, rsi14=35, adjustedClose=100, bollingerLower=101; the upper band
    is there and does not matter. *)
Definition buy_row : gmap string pyval :=
  list_to_map
    [("MACD", PyFloat 1.5); ("RSI_14", PyFloat 35); ("Adj_Close", PyFloat 100);
     ("Bollinger_Lower", PyFloat 101); ("Bollinger_Upper", PyFloat 120)].

(** macd=-2, rsi14=65, adjustedClose=105, bollingerUpper=100. *)
Definition sell_row : gmap string pyval :=
  list_to_map
    [("MACD", PyFloat (-2)); ("RSI_14", PyFloat 65); ("Adj_Close", PyFloat 105);
     ("Bollinger_Lower", PyFloat 90); ("Bollinger_Upper", PyFloat 100)].

(** The buy scenario with the upper band missing ([nan]). *)
Definition buy_row_no_upper : gmap string pyval :=
  <["Bollinger_Upper" := PyFloat nan]> buy_row.

(** The sell scenario with the lower band missing ([nan]). *)
Definition sell_row_no_lower : gmap string pyval :=
  <["Bollinger_Lower" := PyFloat nan]> sell_row.

(** A condition that does not hold: it is false, or evaluating it raises. *)
Definition fails (c : result bool) : Prop := c ≠ Ok true.

(** A field is undefined when the row has no such key, or holds pandas'
    missing value [nan], or holds [None]. *)
Definition undefined (row : gmap string pyval) (key : string) : Prop :=
  row !! key = None ∨ row !! key = Some (PyFloat nan) ∨ row !! key = Some PyNone.

(** A frame of three days with a gap, and live data that restates the last
    day and back-fills the gap. *)
Definition day (n : Z) : Z := timedelta_days n.

Definition store_with_gap : DataFrame :=
  [price_row (day 1) 10 100; price_row (day 3) 11 100; price_row (day 4) 12 100].

Definition backfill : DataFrame :=
  [price_row (day 2) 10.5 150; price_row (day 4) 12.5 180].

(** Twenty days at a close of 10, and live data restating all twenty days at
    a close of 12. *)
Definition twenty_days (close : float) : DataFrame :=
  (λ n : nat, price_row (day (Z.of_nat n)) close 100) <$> seq 0 20.

Definition store_20 : DataFrame := twenty_days 10.
Definition restated_20 : DataFrame := twenty_days 12.

(** A year of trading days at a close of 10, and the live data of a usual
    pass: the last two days restated at 12. *)
Definition store_250 : DataFrame :=
  (λ n : nat, price_row (day (Z.of_nat n)) 10 100) <$> seq 0 250.

Definition last_two_days : DataFrame :=
  [price_row (day 248) 12 100; price_row (day 249) 12 100].


(** A ticker that trades without reported volume (an index, a currency
    pair): the source reports [Volume = 0] on every day. *)
Definition zero_volume_frame : DataFrame :=
  [price_row (day 1) 10 0; price_row (day 2) 11 0].



(** Three stored days, the first two more than a year before day 730, held
    as object 0 of a store. *)
Definition three_days : DataFrame :=
  [price_row (day 0) 10 100; price_row (day 300) 11 100;
   price_row (day 700) 12 100].

Definition three_days_store : Store := {[ 0%nat := three_days ]}.

(** Three passes of the loop over [three_days], read at day 730: a pass
    whose fetch fails, a pass in which the indicator library raises, and a
    quiet pass with no new data. *)
Definition quiet_tick : Tick :=
  {| fetched := Ok {| columns := []; tz := None; quotes := [] |};
     library_fault := None; today := day 730; now := day 730;
     interrupted := false; handler_interrupted := false |}.

Definition failed_fetch_tick : Tick :=
  {| fetched := Raise (LibraryError "connection reset");
     library_fault := None; today := day 730; now := day 730;
     interrupted := false; handler_interrupted := false |}.

Definition failed_compute_tick : Tick :=
  {| fetched := Ok {| columns := []; tz := None; quotes := [] |};
     library_fault := Some (ValueError "window"); today := day 730;
     now := day 730; interrupted := false; handler_interrupted := false |}.

(** Two recent days, both inside the window read at day 730. *)
Definition recent_days : DataFrame :=
  [price_row (day 710) 11 100; price_row (day 700) 10 100].

(** What the indicator step returns for [three_days] read at day 730 with
    the [toy_ta] stand-in. *)
Definition three_days_indicated : DataFrame :=
  [mkRow (day 700) 12 100 13 14 15 16 17 18 19].

(* ===================================================================== *)
(** * Part II. Properties                                                  *)
(* ===================================================================== *)

(** ** Comparisons with [nan] *)

Lemma ltb_nan_l y : PrimFloat.ltb nan y = false.
Proof. rewrite FloatAxioms.ltb_spec. reflexivity. Qed.

Lemma ltb_nan_r x : PrimFloat.ltb x nan = false.
Proof.
  rewrite FloatAxioms.ltb_spec. change (Prim2SF nan) with S754_nan.
  unfold SFltb, SFcompare. destruct (Prim2SF x) as [| | |[] ? ?]; reflexivity.
Qed.

Lemma leb_nan_l y : PrimFloat.leb nan y = false.
Proof. rewrite FloatAxioms.leb_spec. reflexivity. Qed.

Lemma leb_nan_r x : PrimFloat.leb x nan = false.
Proof.
  rewrite FloatAxioms.leb_spec. change (Prim2SF nan) with S754_nan.
  unfold SFleb, SFcompare. destruct (Prim2SF x) as [| | |[] ? ?]; reflexivity.
Qed.

(** ** [predict_signal] *)

(** The try block on a row whose five fields are floats: no exception, and
    the two rules as boolean tests. *)
Lemma predict_signal_body_floats (row : gmap string pyval)
    (macd rsi close lower upper : float) :
  row !! "MACD" = Some (PyFloat macd) →
  row !! "RSI_14" = Some (PyFloat rsi) →
  row !! "Adj_Close" = Some (PyFloat close) →
  row !! "Bollinger_Lower" = Some (PyFloat lower) →
  row !! "Bollinger_Upper" = Some (PyFloat upper) →
  predict_signal_body row =
    Ok (if PrimFloat.ltb 0 macd && PrimFloat.ltb rsi 40 && PrimFloat.leb close lower
        then BUY
        else if PrimFloat.ltb macd 0 && PrimFloat.ltb 60 rsi && PrimFloat.leb upper close
        then SELL else HOLD).
Proof.
  intros Hm Hr Hc Hl Hu.
  unfold predict_signal_body, buy_rule, sell_rule, getitem.
  rewrite Hm, Hr, Hc, Hl, Hu.
  unfold py_gt, py_lt, py_le, py_ge, py_cmp, bind.
  change (float_of_Z 0) with 0%float.
  change (float_of_Z 40) with 40%float.
  change (float_of_Z 60) with 60%float.
  destruct (PrimFloat.ltb 0 macd), (PrimFloat.ltb rsi 40),
    (PrimFloat.leb close lower), (PrimFloat.ltb macd 0),
    (PrimFloat.ltb 60 rsi), (PrimFloat.leb upper close); reflexivity.
Qed.

(** C2. On a record whose macd, rsi14, adjustedClose and both Bollinger
    bands are defined, [predict_signal] returns BUY exactly when macd > 0,
    rsi14 < 40 and adjustedClose <= bollingerLower; failing that, SELL exactly
    when macd < 0, rsi14 > 60 and adjustedClose >= bollingerUpper; failing
    both, HOLD. The rules are tried in this order and the first match wins. *)
Theorem predict_signal_rules (row : gmap string pyval)
    (macd rsi close lower upper : float) :
  row !! "MACD" = Some (PyFloat macd) →
  row !! "RSI_14" = Some (PyFloat rsi) →
  row !! "Adj_Close" = Some (PyFloat close) →
  row !! "Bollinger_Lower" = Some (PyFloat lower) →
  row !! "Bollinger_Upper" = Some (PyFloat upper) →
  let buy := PrimFloat.ltb 0 macd && PrimFloat.ltb rsi 40
             && PrimFloat.leb close lower in
  let sell := PrimFloat.ltb macd 0 && PrimFloat.ltb 60 rsi
              && PrimFloat.leb upper close in
  (predict_signal row = BUY ↔ buy = true) ∧
  (predict_signal row = SELL ↔ buy = false ∧ sell = true) ∧
  (predict_signal row = HOLD ↔ buy = false ∧ sell = false).
Proof.
  intros Hm Hr Hc Hl Hu buy sell. unfold predict_signal.
  rewrite (predict_signal_body_floats row macd rsi close lower upper)
    by assumption.
  fold buy sell. destruct buy, sell; repeat split; intros; try discriminate;
    try tauto; destruct_and?; try discriminate.
Qed.

Lemma predict_signal_rules_witness :
  predict_signal buy_row = BUY ∧ predict_signal sell_row = SELL.
Proof.
  split.
  - destruct (predict_signal_rules buy_row 1.5 35 100 101 120
                eq_refl eq_refl eq_refl eq_refl eq_refl) as ((_ & H) & _).
    apply H. reflexivity.
  - destruct (predict_signal_rules sell_row (-2) 65 105 90 100
                eq_refl eq_refl eq_refl eq_refl eq_refl) as (_ & (_ & H) & _).
    apply H. split; reflexivity.
Defined.

Lemma py_and_fails_l a b : fails a → fails (py_and a b).
Proof. unfold fails. destruct a as [[]|]; simpl; congruence. Qed.

Lemma py_and_fails_r a b : fails b → fails (py_and a b).
Proof. unfold fails. destruct a as [[]|]; simpl; congruence. Qed.

Lemma undefined_left_fails row key fop zop w :
  (∀ y, fop nan y = false) →
  undefined row key →
  fails (v <- getitem row key;; py_cmp fop zop v w).
Proof.
  intros Hf [H | [H | H]]; unfold fails, getitem; rewrite H; simpl.
  - discriminate.
  - destruct w; rewrite ?Hf; discriminate.
  - discriminate.
Qed.

Lemma undefined_both_fails row k1 k2 fop zop :
  (∀ y, fop nan y = false) →
  (∀ x, fop x nan = false) →
  undefined row k1 ∨ undefined row k2 →
  fails (a <- getitem row k1;; b <- getitem row k2;; py_cmp fop zop a b).
Proof.
  intros Hl Hr H. unfold fails, getitem, undefined in *.
  destruct (row !! k1) as [[f1| | |]|]; destruct (row !! k2) as [[f2| | |]|];
    simpl; try discriminate;
    destruct H as [[H | [H | H]] | [H | [H | H]]]; simplify_eq;
    rewrite ?Hl, ?Hr; discriminate.
Qed.

Lemma predict_signal_BUY row : predict_signal row = BUY → buy_rule row = Ok true.
Proof.
  unfold predict_signal, predict_signal_body.
  destruct (buy_rule row) as [[]|]; simpl; try discriminate; auto.
  destruct (sell_rule row) as [[]|]; simpl; discriminate.
Qed.

Lemma predict_signal_SELL row :
  predict_signal row = SELL → sell_rule row = Ok true.
Proof.
  unfold predict_signal, predict_signal_body.
  destruct (buy_rule row) as [[]|]; simpl; try discriminate.
  destruct (sell_rule row) as [[]|]; simpl; try discriminate; auto.
Qed.

Lemma predict_signal_HOLD row :
  fails (buy_rule row) → fails (sell_rule row) → predict_signal row = HOLD.
Proof.
  intros Hb Hs. destruct (predict_signal row) eqn:E; [| |reflexivity].
  - apply predict_signal_BUY in E. contradiction.
  - apply predict_signal_SELL in E. contradiction.
Qed.

Lemma buy_rule_fails row :
  undefined row "MACD" ∨ undefined row "RSI_14" ∨
  undefined row "Adj_Close" ∨ undefined row "Bollinger_Lower" →
  fails (buy_rule row).
Proof.
  intros [H | [H | H]]; unfold buy_rule.
  - apply py_and_fails_l, undefined_left_fails; auto using ltb_nan_r.
  - apply py_and_fails_r, py_and_fails_l, undefined_left_fails;
      auto using ltb_nan_l.
  - apply py_and_fails_r, py_and_fails_r, undefined_both_fails;
      auto using leb_nan_l, leb_nan_r.
Qed.

Lemma sell_rule_fails row :
  undefined row "MACD" ∨ undefined row "RSI_14" ∨
  undefined row "Adj_Close" ∨ undefined row "Bollinger_Upper" →
  fails (sell_rule row).
Proof.
  intros [H | [H | H]]; unfold sell_rule.
  - apply py_and_fails_l, undefined_left_fails; auto using ltb_nan_l.
  - apply py_and_fails_r, py_and_fails_l, undefined_left_fails;
      auto using ltb_nan_r.
  - apply py_and_fails_r, py_and_fails_r, undefined_both_fails;
      auto using leb_nan_l, leb_nan_r.
Qed.

(** C5, as the claim states it, fails: with macd, rsi14, adjustedClose and
    the lower band meeting the BUY rule, an undefined upper band does not
    turn the answer into HOLD (the BUY rule never reads it); likewise an
    undefined lower band leaves a SELL in place. *)
Lemma predict_signal_undefined_band_not_hold :
  undefined buy_row_no_upper "Bollinger_Upper" ∧
  predict_signal buy_row_no_upper = BUY ∧
  undefined sell_row_no_lower "Bollinger_Lower" ∧
  predict_signal sell_row_no_lower = SELL.
Proof.
  repeat split.
  - right; left. reflexivity.
  - right; left. reflexivity.
Qed.

(** C5, amended. [predict_signal] is total: whatever the row holds, the try
    block either yields a signal, which is returned, or raises, and then HOLD
    is returned; nothing escapes. It returns HOLD whenever macd, rsi14 or
    adjustedClose is undefined, and whenever both bands are. An undefined
    lower band alone rules out BUY, an undefined upper band alone rules out
    SELL. *)
Theorem predict_signal_total (row : gmap string pyval) :
  (predict_signal_body row = Ok (predict_signal row) ∨
   (∃ e, predict_signal_body row = Raise e) ∧ predict_signal row = HOLD) ∧
  (undefined row "MACD" ∨ undefined row "RSI_14" ∨ undefined row "Adj_Close" →
   predict_signal row = HOLD) ∧
  (undefined row "Bollinger_Lower" → undefined row "Bollinger_Upper" →
   predict_signal row = HOLD) ∧
  (undefined row "Bollinger_Lower" → predict_signal row ≠ BUY) ∧
  (undefined row "Bollinger_Upper" → predict_signal row ≠ SELL).
Proof.
  split; [|split; [|split; [|split]]].
  - unfold predict_signal. destruct (predict_signal_body row); eauto.
  - intros H. apply predict_signal_HOLD;
      [apply buy_rule_fails | apply sell_rule_fails]; tauto.
  - intros Hl Hu. apply predict_signal_HOLD;
      [apply buy_rule_fails | apply sell_rule_fails]; tauto.
  - intros Hl E. apply predict_signal_BUY in E.
    apply (buy_rule_fails row); tauto.
  - intros Hu E. apply predict_signal_SELL in E.
    apply (sell_rule_fails row); tauto.
Qed.

Lemma predict_signal_total_witness :
  predict_signal (delete "RSI_14" buy_row) = HOLD ∧
  predict_signal (<["RSI_14" := PyFloat nan]> buy_row) = HOLD ∧
  predict_signal buy_row_no_upper ≠ SELL.
Proof.
  split; [|split].
  - destruct (predict_signal_total (delete "RSI_14" buy_row))
      as (_ & H & _).
    apply H. right; left. left. reflexivity.
  - destruct (predict_signal_total (<["RSI_14" := PyFloat nan]> buy_row))
      as (_ & H & _).
    apply H. right; left. right; left. reflexivity.
  - destruct (predict_signal_total buy_row_no_upper) as (_ & _ & _ & _ & H).
    apply H. right; left. reflexivity.
Defined.

(** ** Dates, order and duplicates *)

#[local] Instance date_le_trans : Transitive date_le.
Proof. unfold date_le. intros x y z. lia. Qed.

#[local] Instance date_lt_trans : Transitive date_lt.
Proof. unfold date_lt. intros x y z. lia. Qed.

#[local] Instance date_lt_antisymm : AntiSymm eq date_lt.
Proof. unfold date_lt. intros x y. lia. Qed.

Lemma rows_on_app date d1 d2 :
  rows_on date (d1 ++ d2) = rows_on date d1 ++ rows_on date d2.
Proof. apply filter_app. Qed.

Lemma elem_of_rows_on date d r : r ∈ rows_on date d ↔ Date r = date ∧ r ∈ d.
Proof. unfold rows_on. by rewrite list_elem_of_filter. Qed.

Lemma rows_on_nil_iff date d :
  rows_on date d = [] ↔ ¬ Exists (λ r, Date r = date) d.
Proof.
  rewrite Exists_exists. split.
  - intros E (r & Hr & Hd).
    assert (r ∈ rows_on date d) as Hin by (apply elem_of_rows_on; auto).
    rewrite E in Hin. by apply not_elem_of_nil in Hin.
  - intros H. destruct (rows_on date d) as [|r l] eqn:E; [done|].
    exfalso. apply H. exists r.
    assert (r ∈ rows_on date d) as Hin by (rewrite E; left).
    apply elem_of_rows_on in Hin. tauto.
Qed.

Lemma rows_on_cons date r d :
  rows_on date (r :: d) =
  if decide (Date r = date) then r :: rows_on date d else rows_on date d.
Proof. unfold rows_on. by rewrite filter_cons. Qed.

Lemma drop_duplicates_last_subseteq d : drop_duplicates_last d ⊆ d.
Proof.
  induction d as [|r d IH]; simpl; [done|].
  destruct (bool_decide _); intros x Hx.
  - right. by apply IH.
  - apply elem_of_cons in Hx as [->|Hx]; [left | right; by apply IH].
Qed.

(** Of the rows with a given date, [drop_duplicates] keeps the last one and
    nothing else. *)
Lemma rows_on_drop_duplicates_last date d :
  rows_on date (drop_duplicates_last d) = option_list (last (rows_on date d)).
Proof.
  induction d as [|r d IH]; [done|].
  cbn [drop_duplicates_last]. case_bool_decide as Hex.
  - rewrite IH, rows_on_cons. case_decide as Hd; [|done].
    subst date. destruct (rows_on (Date r) d) as [|r' l] eqn:E; [|done].
    exfalso. by apply (proj1 (rows_on_nil_iff (Date r) d)).
  - rewrite !rows_on_cons. case_decide as Hd; [|done].
    subst date. rewrite IH.
    apply rows_on_nil_iff in Hex. by rewrite Hex.
Qed.

Lemma strictly_ascending_date_inj d r1 r2 :
  strictly_ascending d → r1 ∈ d → r2 ∈ d → Date r1 = Date r2 → r1 = r2.
Proof.
  intros Hs. apply (Sorted_StronglySorted _) in Hs.
  induction Hs as [|r d Hs IH Hall]; intros H1 H2 E.
  - by apply not_elem_of_nil in H1.
  - rewrite Forall_forall in Hall. unfold date_lt in Hall.
    apply elem_of_cons in H1 as [->|H1]; apply elem_of_cons in H2 as [->|H2];
      auto.
    + specialize (Hall _ H2). lia.
    + specialize (Hall _ H1). lia.
Qed.

Lemma strictly_ascending_NoDup d : strictly_ascending d → NoDup d.
Proof.
  intros Hs. apply (Sorted_StronglySorted _) in Hs.
  induction Hs as [|r d Hs IH Hall]; constructor; auto.
  intros Hin. rewrite Forall_forall in Hall.
  specialize (Hall _ Hin). unfold date_lt in Hall. lia.
Qed.

(** Dropping duplicates from a frame in ascending date order leaves a frame
    in strictly ascending order. *)
Lemma drop_duplicates_last_strict d :
  ascending d → strictly_ascending (drop_duplicates_last d).
Proof.
  intros Hs. apply (Sorted_StronglySorted _) in Hs.
  apply StronglySorted_Sorted.
  induction Hs as [|r d Hs IH Hall]; simpl; [constructor|].
  case_bool_decide as Hex; [done|].
  constructor; [done|].
  rewrite Forall_forall in *. intros r' Hr'.
  apply drop_duplicates_last_subseteq in Hr'.
  specialize (Hall _ Hr'). unfold date_le, date_lt in *.
  destruct (decide (Date r' = Date r)) as [E|]; [|lia].
  exfalso. apply Hex. apply Exists_exists. eauto.
Qed.

(** Every date of the frame survives [drop_duplicates]. *)
Lemma drop_duplicates_last_keeps_dates d r :
  r ∈ d → ∃ r', r' ∈ drop_duplicates_last d ∧ Date r' = Date r.
Proof.
  intros Hin.
  pose proof (rows_on_drop_duplicates_last (Date r) d) as H.
  destruct (last (rows_on (Date r) d)) as [r'|] eqn:E.
  - exists r'. assert (r' ∈ rows_on (Date r) (drop_duplicates_last d)) as Hr'
      by (rewrite H; left).
    apply elem_of_rows_on in Hr'. tauto.
  - apply last_None in E.
    assert (r ∈ rows_on (Date r) d) as Hr by (by apply elem_of_rows_on).
    rewrite E in Hr. by apply not_elem_of_nil in Hr.
Qed.

Section Merge.

Context (sort_values : DataFrame → DataFrame).
Context (Hsort : sorts_by_date sort_values).

Lemma elem_of_sort_values d r : r ∈ sort_values d ↔ r ∈ d.
Proof. by rewrite (sort_values_perm _ Hsort d). Qed.

(** The merge proper (a non-empty [live_df]) yields strictly ascending
    dates whatever the order of its inputs. *)
Lemma update_df_merge_strict df live :
  live ≠ [] → strictly_ascending (update_df sort_values df (Some live)).
Proof.
  intros Hne. destruct live as [|r live]; [done|]. simpl.
  apply drop_duplicates_last_strict, (sort_values_ascending _ Hsort).
Qed.

Lemma elem_of_update_df_merge df live r :
  live ≠ [] →
  r ∈ update_df sort_values df (Some live) → r ∈ df ++ live.
Proof.
  intros Hne Hr. destruct live as [|r0 live]; [done|].
  cbn [update_df] in Hr.
  apply drop_duplicates_last_subseteq in Hr.
  by apply (elem_of_sort_values (df ++ r0 :: live) r).
Qed.

Lemma update_df_merge_keeps_dates df live r :
  live ≠ [] → r ∈ df ++ live →
  ∃ r', r' ∈ update_df sort_values df (Some live) ∧ Date r' = Date r.
Proof.
  intros Hne Hr. destruct live as [|r0 live]; [done|]. cbn [update_df].
  apply drop_duplicates_last_keeps_dates. by apply elem_of_sort_values.
Qed.

End Merge.

(** ** The stable sort meets both contracts *)

Lemma insert_by_date_perm r d : insert_by_date r d ≡ₚ r :: d.
Proof.
  induction d as [|r' d IH]; simpl; [done|].
  case_bool_decide; [done|]. rewrite IH. apply Permutation_swap.
Qed.

Lemma insert_by_date_ascending r d :
  ascending d → ascending (insert_by_date r d).
Proof.
  unfold ascending. intros Hs. apply (Sorted_StronglySorted _) in Hs.
  apply StronglySorted_Sorted.
  induction Hs as [|r' d Hs IH Hall]; simpl.
  - repeat constructor.
  - case_bool_decide as Hlt.
    + constructor; [by constructor|].
      constructor; [unfold date_le; lia|].
      rewrite Forall_forall in *. intros x Hx. specialize (Hall _ Hx).
      unfold date_le in *. lia.
    + constructor; [done|].
      rewrite Forall_forall in *. intros x Hx.
      rewrite insert_by_date_perm in Hx.
      apply elem_of_cons in Hx as [->|Hx]; [unfold date_le; lia|auto].
Qed.

Lemma rows_on_insert_by_date date r d :
  ascending d →
  rows_on date (insert_by_date r d) = rows_on date d ++ rows_on date [r].
Proof.
  unfold ascending. intros Hs. apply (Sorted_StronglySorted _) in Hs.
  induction Hs as [|r' d Hs IH Hall]; simpl; [done|].
  case_bool_decide as Hlt.
  - rewrite !rows_on_cons. change (rows_on date []) with (@nil Row).
    case_decide as E; [|by rewrite app_nil_r].
    subst date. case_decide; [lia|].
    assert (rows_on (Date r) d = []) as ->; [|done].
    apply rows_on_nil_iff. rewrite Exists_exists. intros (x & Hx & Ex).
    rewrite Forall_forall in Hall. specialize (Hall _ Hx).
    unfold date_le in Hall. lia.
  - rewrite (rows_on_cons date r' (insert_by_date r d)), IH.
    rewrite (rows_on_cons date r' d). by case_decide.
Qed.

Lemma sort_values_stable_sorts : sorts_by_date sort_values_stable.
Proof.
  unfold sort_values_stable.
  assert (∀ d acc, foldl (λ s r, insert_by_date r s) acc d ≡ₚ acc ++ d) as Hp.
  { induction d as [|r d IH]; intros acc; simpl; [by rewrite app_nil_r|].
    rewrite IH, insert_by_date_perm. simpl. apply Permutation_middle. }
  assert (∀ d acc, ascending acc →
            ascending (foldl (λ s r, insert_by_date r s) acc d)) as Hs.
  { induction d as [|r d IH]; intros acc Hacc; simpl; [done|].
    by apply IH, insert_by_date_ascending. }
  split.
  - intros d. apply (Hp d []).
  - intros d. apply Hs. constructor.
Qed.

Lemma sort_values_stable_keeps_tie_order : keeps_tie_order sort_values_stable.
Proof.
  unfold keeps_tie_order, sort_values_stable.
  assert (∀ d acc date, ascending acc →
            ascending (foldl (λ s r, insert_by_date r s) acc d) ∧
            rows_on date (foldl (λ s r, insert_by_date r s) acc d) =
            rows_on date acc ++ rows_on date d) as H.
  { induction d as [|r d IH]; intros acc date Hacc; simpl.
    - by rewrite app_nil_r.
    - destruct (IH (insert_by_date r acc) date) as [Ha Hr];
        [by apply insert_by_date_ascending|].
      split; [done|]. rewrite Hr, rows_on_insert_by_date by done.
      rewrite <- app_assoc. f_equal. apply symmetry, (rows_on_app date [r] d). }
  intros d date. apply H. constructor.
Qed.

(** ** [update_df] *)

Lemma strictly_ascending_dates_NoDup d :
  strictly_ascending d → NoDup (Date <$> d).
Proof.
  intros Hs. apply (Sorted_StronglySorted _) in Hs.
  induction Hs as [|r d Hs IH Hall]; simpl; constructor; auto.
  intros Hin. apply list_elem_of_fmap in Hin as (r' & E & Hr').
  rewrite Forall_forall in Hall. specialize (Hall _ Hr').
  unfold date_lt in Hall. lia.
Qed.

Lemma store_with_gap_strict : strictly_ascending store_with_gap.
Proof. repeat constructor. Qed.

Section MergeTheorems.

Context (sort_values : DataFrame → DataFrame).
Context (Hsort : sorts_by_date sort_values).

(** C4. For an ordered store [existing] and any [incoming] (none, empty,
    ahead of the store or back-filling dates before its last one), the
    merged frame is strictly ascending by date, holds no date twice, and
    holds every date of either input and nothing else: a back-filled date
    sits at its sorted position. *)
Theorem update_df_sorted_unique (existing : DataFrame)
    (incoming : option DataFrame) :
  strictly_ascending existing →
  let merged := update_df sort_values existing incoming in
  strictly_ascending merged ∧
  NoDup (Date <$> merged) ∧
  (∀ r, r ∈ existing ++ default [] incoming →
        ∃ r', r' ∈ merged ∧ Date r' = Date r) ∧
  (∀ r, r ∈ merged → r ∈ existing ++ default [] incoming).
Proof.
  intros Hex merged.
  assert (strictly_ascending merged) as Hm.
  { subst merged. destruct incoming as [[|r live]|]; try done.
    by apply update_df_merge_strict. }
  split; [done|]. split; [by apply strictly_ascending_dates_NoDup|].
  subst merged. destruct incoming as [[|r0 live]|]; simpl default.
  - rewrite app_nil_r. split; [eauto|done].
  - split.
    + intros r Hr. by apply update_df_merge_keeps_dates.
    + intros r Hr. by apply elem_of_update_df_merge in Hr.
  - rewrite app_nil_r. split; [eauto|done].
Qed.

(** C6. Merging with no live data, [None] or an empty frame, returns the
    store as it is, for every store. Hence, for an ordered store [S],
    merge(S, merge(S, empty)) = merge(S, empty) = S. *)
Theorem update_df_noop_idempotent (S : DataFrame) :
  (update_df sort_values S None = S ∧ update_df sort_values S (Some []) = S) ∧
  (strictly_ascending S →
   update_df sort_values S (Some (update_df sort_values S (Some []))) =
     update_df sort_values S (Some []) ∧
   update_df sort_values S (Some (update_df sort_values S None)) = S).
Proof.
  split; [done|]. intros HS.
  assert (update_df sort_values S (Some S) = S) as Hidem; [|by split].
  destruct S as [|r0 S]; [done|].
  assert (r0 :: S ≠ []) as Hne by done.
  apply (Sorted_unique date_lt); [by apply update_df_merge_strict|done|].
  apply NoDup_Permutation.
  - by apply strictly_ascending_NoDup, update_df_merge_strict.
  - by apply strictly_ascending_NoDup.
  - intros r. split.
    + intros Hr. apply elem_of_update_df_merge in Hr; [|done..].
      apply elem_of_app in Hr. tauto.
    + intros Hr.
      destruct (update_df_merge_keeps_dates sort_values Hsort
                  (r0 :: S) (r0 :: S) r) as (r' & Hr' & E);
        [done|apply elem_of_app; tauto|].
      assert (r' ∈ r0 :: S) as Hin.
      { apply elem_of_update_df_merge in Hr'; [|done..].
        apply elem_of_app in Hr'. tauto. }
      by rewrite <- (strictly_ascending_date_inj _ _ _ HS Hin Hr E).
Qed.

(** With a sort that keeps the order of equal dates, the live record wins:
    the merged frame has one record for each date of [incoming], the last
    one [incoming] has for it. *)
Lemma update_df_incoming_wins_if_stable (existing incoming : DataFrame)
    (date : Z) (r : Row) :
  keeps_tie_order sort_values →
  last (rows_on date incoming) = Some r →
  rows_on date (update_df sort_values existing (Some incoming)) = [r].
Proof.
  intros Hstable Hlast. destruct incoming as [|r0 live]; [done|].
  cbn [update_df]. rewrite rows_on_drop_duplicates_last, Hstable.
  by rewrite rows_on_app, last_app, Hlast.
Qed.

End MergeTheorems.

Lemma update_df_sorted_unique_witness :
  strictly_ascending (update_df sort_values_stable store_with_gap (Some backfill)) ∧
  Date <$> update_df sort_values_stable store_with_gap (Some backfill) =
    [day 1; day 2; day 3; day 4].
Proof.
  split.
  - pose proof (update_df_sorted_unique sort_values_stable
                  sort_values_stable_sorts store_with_gap (Some backfill)
                  store_with_gap_strict) as H.
    cbv zeta in H. apply H.
  - reflexivity.
Defined.

Lemma update_df_noop_idempotent_witness :
  update_df sort_values_stable store_with_gap None = store_with_gap ∧
  update_df sort_values_stable store_with_gap
    (Some (update_df sort_values_stable store_with_gap None)) = store_with_gap.
Proof.
  destruct (update_df_noop_idempotent sort_values_stable
              sort_values_stable_sorts store_with_gap) as [[H1 _] H2].
  split; [exact H1|]. apply H2, store_with_gap_strict.
Defined.

(** On [store_20 ++ restated_20] the default sort returns the forty rows in
    ascending date order, with the two rows of a day in either order. *)
Lemma sort_values_default_store_20 :
  quicksort_values (store_20 ++ restated_20) =
    Some (sort_values_default (store_20 ++ restated_20)) ∧
  Date <$> sort_values_default (store_20 ++ restated_20) =
    Date <$> sort_values_stable (store_20 ++ restated_20) ∧
  Adj_Close <$> rows_on (day 0) (sort_values_default (store_20 ++ restated_20))
    = [10; 12]%float ∧
  Adj_Close <$> rows_on (day 17) (sort_values_default (store_20 ++ restated_20))
    = [12; 10]%float.
Proof. vm_compute. repeat split. Qed.

(** On short frames, and on a long store followed by its last two days (what
    [get_live] fetches), the default sort leaves equal dates in their order
    and the live record is the one kept. *)
Example update_df_default_sort_tail :
  Adj_Close <$> update_df sort_values_default
                  [price_row (day 1) 10 100] (Some [price_row (day 1) 12 100])
    = [12%float] ∧
  update_df sort_values_default store_with_gap (Some backfill) =
    update_df sort_values_stable store_with_gap (Some backfill) ∧
  update_df sort_values_default store_250 (Some last_two_days) =
    update_df sort_values_stable store_250 (Some last_two_days) ∧
  Adj_Close <$> rows_on (day 249)
                  (update_df sort_values_default store_250 (Some last_two_days))
    = [12%float].
Proof. vm_compute. repeat split. Qed.

(** C1, at a failing input. [store_20] holds days 0..19 at a close of 10 and
    [restated_20] restates the same days at 12. Day 17 is in both, and the
    merged frame has one record for it, but with the close of the store
    (10), not of the live data (12): the default sort put the live row of
    day 17 before the stored one, and [keep='last'] kept the stored one. *)
Theorem update_df_default_sort_keeps_stored_record :
  rows_on (day 17) store_20 = [price_row (day 17) 10 100] ∧
  rows_on (day 17) restated_20 = [price_row (day 17) 12 100] ∧
  rows_on (day 17) (update_df sort_values_default store_20 (Some restated_20))
    = [price_row (day 17) 10 100].
Proof. vm_compute. repeat split. Qed.

(** ** [calculate_scale_value] *)

(** The call never takes the [except] branch: it returns the quotient,
    whatever the quotient is. *)
Lemma calculate_scale_value_quotient df :
  calculate_scale_value df =
  PrimFloat.div (series_max (Adj_Close <$> df)) (int_series_max (Volume <$> df)).
Proof. reflexivity. Qed.

(** C9, at a failing input. On a frame whose volume is zero on every day the
    scale is max close / 0 = +infinity; the fallback 0.0001 is not returned
    and the scale is not finite. *)
Theorem calculate_scale_value_zero_volume :
  int_series_max (Volume <$> zero_volume_frame) = 0%float ∧
  calculate_scale_value zero_volume_frame = infinity ∧
  calculate_scale_value zero_volume_frame ≠ 0x1.a36e2eb1c432dp-14%float.
Proof.
  split; [reflexivity|]. split; [reflexivity|].
  intros H. vm_compute in H. discriminate H.
Qed.

(** ** [get_live] and what the merge stores *)


(** [get_stock_data] stores the adjusted close of each quote. *)
Lemma get_stock_data_adjusted (fetched : result History) (df : DataFrame) :
  get_stock_data fetched = Ok df →
  ∃ h, fetched = Ok h ∧
       df = (λ q, price_row (q_Date q) (q_Adj_Close q) (q_Volume q)) <$> quotes h.
Proof.
  unfold get_stock_data. destruct fetched as [h|e]; simpl.
  - intros H. exists h. split; [done|].
    destruct (quotes h) as [|q qs]; [discriminate|].
    destruct (filter (has_column h) ["Adj Close"; "Adj.Close"]) as [|c cs];
      [discriminate|].
    destruct (require_columns h ["Date"; c; "Volume"]); simpl in H;
      [by inversion H|].
    destruct (is_Exception e); discriminate.
  - destruct (is_Exception e); discriminate.
Qed.




(** ** Column assignment *)

Lemma length_assign_column set values d :
  length (assign_column set values d) = length d.
Proof. apply length_imap. Qed.

Lemma fmap_imap_set_other {B} (get : Row → B) (set : float → Row → Row)
    (F : nat → float) (d : DataFrame) :
  (∀ x r, get (set x r) = get r) →
  get <$> imap (λ i r, set (F i) r) d = get <$> d.
Proof.
  intros Hget. revert F. induction d as [|r d IH]; intros F; [done|].
  simpl. f_equal; [done|]. apply (IH (F ∘ S)).
Qed.

Lemma fmap_imap_set_same {B} (get : Row → B) (set : float → Row → Row)
    (G : float → B) (F : nat → float) (d : DataFrame) :
  (∀ x r, get (set x r) = G x) →
  get <$> imap (λ i r, set (F i) r) d = (G ∘ F) <$> seq 0 (length d).
Proof.
  intros Hget. revert F. induction d as [|r d IH]; intros F; [done|].
  simpl. f_equal; [done|].
  rewrite <- fmap_S_seq, <- list_fmap_compose. apply (IH (F ∘ S)).
Qed.

Lemma fmap_assign_column_other {B} (get : Row → B) set values d :
  (∀ x r, get (set x r) = get r) →
  get <$> assign_column set values d = get <$> d.
Proof. apply fmap_imap_set_other. Qed.

Lemma fmap_assign_column_same (get : Row → float) set values d :
  (∀ x r, get (set x r) = x) →
  get <$> assign_column set values d = column_values values (length d).
Proof.
  intros Hget. unfold assign_column, column_values.
  by rewrite (fmap_imap_set_same get set id).
Qed.

(** What [indicator_columns] holds, column by column: the base columns of
    the frame it was given, and each derived column as the indicator computed
    from the close of every row of that frame. *)
Lemma indicator_columns_spec ta d :
  let close := Adj_Close <$> d in
  let full := indicator_columns ta d in
  Date <$> full = Date <$> d ∧
  Adj_Close <$> full = close ∧
  Volume <$> full = Volume <$> d ∧
  SMA_20 <$> full = column_values (sma_indicator ta close 20) (length d) ∧
  Bollinger_Upper <$> full =
    column_values (bollinger_hband ta close 20 2) (length d) ∧
  Bollinger_Lower <$> full =
    column_values (bollinger_lband ta close 20 2) (length d) ∧
  RSI_14 <$> full = column_values (rsi ta close 14) (length d) ∧
  MACD <$> full = column_values (macd ta close 26 12 9) (length d) ∧
  MACD_Signal <$> full =
    column_values (macd_signal ta close 26 12 9) (length d) ∧
  MACD_Diff <$> full = column_values (macd_diff ta close 26 12 9) (length d).
Proof.
  intros close full. subst full. unfold indicator_columns. fold close.
  repeat split;
    rewrite ?fmap_assign_column_other by done;
    rewrite ?fmap_assign_column_same by done;
    rewrite ?length_assign_column; reflexivity.
Qed.

(** ** [get_indicator_data] on the object store *)

Lemma fresh_not_allocated (h : Store) (l : nat) (d : DataFrame) :
  h !! l = Some d → fresh (dom h) ≠ l.
Proof.
  intros Hl E. pose proof (is_fresh (dom h)) as Hf.
  rewrite E in Hf. apply Hf. apply elem_of_dom. eauto.
Qed.

Lemma deref_insert_eq (h : Store) l d : deref (<[l := d]> h) l = d.
Proof. unfold deref. by rewrite lookup_insert_eq. Qed.

Lemma setitem_insert_eq set values l d (h : Store) :
  setitem set values l (<[l := d]> h) = <[l := assign_column set values d]> h.
Proof. unfold setitem. by rewrite alter_insert_eq. Qed.

Section Indicators.

Context (sort_values : DataFrame → DataFrame) (ta : TA).

(** One call, in full: a first new object receives the sorted copy and the
    seven columns; a second new object receives the rows in the window and
    is returned. Nothing else in the store changes. *)
Lemma get_indicator_data_spec (today : Z) (df : nat) (h : Store)
    (D : DataFrame) :
  h !! df = Some D →
  let full := indicator_columns ta (sort_values D) in
  let h1 := <[fresh (dom h) := full]> h in
  get_indicator_data sort_values ta today df h =
    (fresh (dom h1), <[fresh (dom h1) := filter (in_window today) full]> h1).
Proof.
  intros Hdf full h1. unfold get_indicator_data, alloc.
  assert (deref h df = D) as -> by (unfold deref; by rewrite Hdf).
  set (l := fresh (dom h)).
  repeat (rewrite ?deref_insert_eq, ?setitem_insert_eq;
          rewrite ?fmap_assign_column_other by done).
  reflexivity.
Qed.

Lemma indicator_frame_spec (today : Z) (d : DataFrame) :
  indicator_frame sort_values ta today d =
  filter (in_window today) (indicator_columns ta (sort_values d)).
Proof.
  unfold indicator_frame, alloc.
  rewrite (get_indicator_data_spec today _ _ d) by apply lookup_insert_eq.
  apply deref_insert_eq.
Qed.

(** C3. [get_indicator_data] computes every derived column from the close
    of every row of the frame it receives: the frame [full] below has one
    row per input row, does not depend on the clock, and each of its seven
    derived columns is the indicator applied to the whole close column.
    Only then are the rows dated before (today - 365 days) left out of what
    is returned, whatever the clock reads; the values the indicators were
    fed are the same for every reading. *)
Theorem get_indicator_data_full_history (df : nat) (h : Store)
    (D : DataFrame) :
  sorts_by_date sort_values →
  h !! df = Some D →
  let close := Adj_Close <$> sort_values D in
  ∃ full : DataFrame,
    close ≡ₚ Adj_Close <$> D ∧
    length full = length D ∧
    Date <$> full = Date <$> sort_values D ∧
    Adj_Close <$> full = close ∧
    Volume <$> full = Volume <$> sort_values D ∧
    SMA_20 <$> full = column_values (sma_indicator ta close 20) (length D) ∧
    Bollinger_Upper <$> full =
      column_values (bollinger_hband ta close 20 2) (length D) ∧
    Bollinger_Lower <$> full =
      column_values (bollinger_lband ta close 20 2) (length D) ∧
    RSI_14 <$> full = column_values (rsi ta close 14) (length D) ∧
    MACD <$> full = column_values (macd ta close 26 12 9) (length D) ∧
    MACD_Signal <$> full =
      column_values (macd_signal ta close 26 12 9) (length D) ∧
    MACD_Diff <$> full =
      column_values (macd_diff ta close 26 12 9) (length D) ∧
    ∀ today,
      let '(out, h') := get_indicator_data sort_values ta today df h in
      deref h' out =
        filter (λ r, today - timedelta_days 365 ≤ Date r) full.
Proof.
  intros Hsort Hdf close. exists (indicator_columns ta (sort_values D)).
  assert (length (sort_values D) = length D) as Hlen
    by (by rewrite (sort_values_perm _ Hsort D)).
  destruct (indicator_columns_spec ta (sort_values D))
    as (Hd & Hc & Hv & H1 & H2 & H3 & H4 & H5 & H6 & H7).
  rewrite Hlen in *. fold close in H1, H2, H3, H4, H5, H6, H7.
  split; [subst close; by rewrite (sort_values_perm _ Hsort D)|].
  split.
  { rewrite <- Hlen, <- (length_fmap Date), Hd. apply length_fmap. }
  repeat (split; [assumption|]).
  intros today. rewrite (get_indicator_data_spec today df h D Hdf).
  apply deref_insert_eq.
Qed.

(** C7. Two calls in a row on the same frame object. Neither call writes
    to that object, nor to the frame the other call returned. With the same
    clock reading the two returned frames are equal, row for row and
    column for column; with a later reading the second frame is the first
    one less the rows that left the window, every remaining row
    unchanged. *)
Theorem get_indicator_data_deterministic (df : nat) (h : Store)
    (D : DataFrame) (today1 today2 : Z) :
  h !! df = Some D →
  let '(out1, h1) := get_indicator_data sort_values ta today1 df h in
  let '(out2, h2) := get_indicator_data sort_values ta today2 df h1 in
  h1 !! df = Some D ∧ h2 !! df = Some D ∧
  deref h2 out1 = deref h1 out1 ∧
  (today1 = today2 → deref h2 out2 = deref h1 out1) ∧
  (today1 ≤ today2 →
   deref h2 out2 =
     filter (λ r, today2 - timedelta_days 365 ≤ Date r) (deref h1 out1)).
Proof.
  intros Hdf.
  rewrite (get_indicator_data_spec today1 df h D Hdf). cbv zeta.
  set (full := indicator_columns ta (sort_values D)).
  set (ha := <[fresh (dom h) := full]> h).
  set (h1 := <[fresh (dom ha) := filter (in_window today1) full]> ha).
  assert (ha !! df = Some D) as Hdfa.
  { subst ha. rewrite lookup_insert_ne; [done|].
    by apply (fresh_not_allocated h df D). }
  assert (h1 !! df = Some D) as Hdf1.
  { subst h1. rewrite lookup_insert_ne; [done|].
    by apply (fresh_not_allocated ha df D). }
  rewrite (get_indicator_data_spec today2 df h1 D Hdf1). cbv zeta.
  fold full. set (hb := <[fresh (dom h1) := full]> h1).
  assert (hb !! df = Some D) as Hdfb.
  { subst hb. rewrite lookup_insert_ne; [done|].
    by apply (fresh_not_allocated h1 df D). }
  assert (h1 !! fresh (dom ha) = Some (filter (in_window today1) full))
    as Hout1 by (subst h1; apply lookup_insert_eq).
  assert (hb !! fresh (dom ha) = Some (filter (in_window today1) full))
    as Hout1b.
  { subst hb. rewrite lookup_insert_ne; [done|].
    by apply (fresh_not_allocated h1 _ _ Hout1). }
  split; [done|]. split.
  { rewrite lookup_insert_ne; [done|].
    by apply (fresh_not_allocated hb df D). }
  rewrite deref_insert_eq. unfold deref.
  rewrite lookup_insert_ne by (by apply (fresh_not_allocated hb _ _ Hout1b)).
  rewrite Hout1b, Hout1. cbn [default].
  split; [done|]. split.
  - by intros ->.
  - intros Hle. symmetry. apply list_filter_filter_l.
    unfold in_window. intros r. lia.
Qed.

End Indicators.

Lemma get_indicator_data_full_history_witness :
  ∃ full : DataFrame,
    length full = 3%nat ∧
    ∀ today,
      let '(out, h') :=
        get_indicator_data sort_values_stable toy_ta today 0 three_days_store in
      deref h' out = filter (λ r, today - timedelta_days 365 ≤ Date r) full.
Proof.
  destruct (get_indicator_data_full_history sort_values_stable toy_ta
              0%nat three_days_store three_days
              sort_values_stable_sorts eq_refl)
    as (full & _ & Hlen & _ & _ & _ & _ & _ & _ & _ & _ & _ & _ & Hcall).
  exists full. split; [exact Hlen | exact Hcall].
Defined.

Lemma get_indicator_data_deterministic_witness :
  let '(out1, h1) :=
    get_indicator_data sort_values_stable toy_ta (day 730) 0 three_days_store in
  let '(out2, h2) :=
    get_indicator_data sort_values_stable toy_ta (day 731) 0 h1 in
  h1 !! 0%nat = Some three_days ∧ h2 !! 0%nat = Some three_days ∧
  deref h2 out1 = deref h1 out1 ∧
  (day 730 = day 731 → deref h2 out2 = deref h1 out1) ∧
  (day 730 ≤ day 731 →
   deref h2 out2 =
     filter (λ r, day 731 - timedelta_days 365 ≤ Date r) (deref h1 out1)).
Proof.
  exact (get_indicator_data_deterministic sort_values_stable toy_ta
           0%nat three_days_store three_days (day 730) (day 731) eq_refl).
Defined.

(** On [three_days] read at day 730 only day 700 is returned, with the
    columns computed from all three closes. *)
Example indicator_frame_three_days :
  (λ r, (Date r, Adj_Close r, SMA_20 r, MACD_Diff r)) <$>
    indicator_frame sort_values_stable toy_ta (day 730) three_days =
  [(day 700, 12, 13, 19)%float].
Proof. reflexivity. Qed.

(** ** The monitoring loop *)

Lemma waits_app out1 out2 : waits (out1 ++ out2) = (waits out1 + waits out2)%nat.
Proof. unfold waits. by rewrite filter_app, length_app. Qed.

Lemma get_live_outcome (f : result History) :
  (∃ live, get_live f = (Ok live, [])) ∨
  (∃ e, f = Raise e ∧ is_Exception e = true ∧
        get_live f = (Ok None, [PrintLiveDataError e])) ∨
  (∃ e h, f = Ok h ∧ is_Exception e = true ∧
          get_live f = (Ok None, [PrintLiveDataError e])) ∨
  (f = Raise KeyboardInterrupt ∧ get_live f = (Raise KeyboardInterrupt, [])).
Proof.
  unfold get_live. destruct f as [h|e]; simpl.
  - destruct (quotes h) as [|q qs]; [eauto|].
    destruct (require_columns h ["Date"; "Close"; "Volume"]) as [[]|e] eqn:E;
      simpl; [eauto|].
    unfold require_columns in E.
    destruct (filter _ _) in E; [discriminate|]. inversion E; subst e.
    right; right; left. by exists (KeyError s), h.
  - destruct e; simpl; eauto 10.
Qed.

Section Loop.

Context (sort_values : DataFrame → DataFrame) (ta : TA) (ticker : string).

#[local] Abbreviation pass := (iteration sort_values ta ticker).
#[local] Abbreviation run := (monitor sort_values ta ticker).

(** A pass without Ctrl+C either completes, having reached its wait, or
    raises an [Exception] before any wait. *)
Lemma iteration_calm (tk : Tick) (df : DataFrame) :
  ctrl_c tk = false →
  ∃ r df' out, pass tk df = (r, df', out) ∧
    match r with
    | Ok _ => waits out = 1%nat
    | Raise e => is_Exception e = true ∧ waits out = 0%nat
    end.
Proof.
  unfold ctrl_c. intros Hc.
  apply orb_false_elim in Hc as [Hc Hfault].
  apply orb_false_elim in Hc as [Hc Hfetch].
  apply orb_false_elim in Hc as [Hint Hhint].
  unfold iteration.
  destruct (get_live_outcome (fetched tk))
    as [[live ->] | [(e & _ & _ & ->) | [(e & h & _ & _ & ->) | [E _]]]];
    [| | |by rewrite E in Hfetch].
  all: destruct (library_fault tk) as [e'|];
    [do 3 eexists; split; [reflexivity|];
     split; [by destruct e'|reflexivity]|].
  all: destruct (iloc_last _) as [latest|e'] eqn:Hlast;
    [rewrite Hint; do 3 eexists; split; [reflexivity|];
     by rewrite waits_app
    |do 3 eexists; split; [reflexivity|];
     unfold iloc_last in Hlast; destruct (last _); inversion Hlast;
     split; reflexivity].
Qed.

Lemma monitor_cons_raise (tk : Tick) (rest : list Tick) (df df' : DataFrame)
    (e : exn) (out : list event) :
  pass tk df = (Raise e, df', out) →
  is_Exception e = true →
  run (tk :: rest) df =
    if handler_interrupted tk
    then (Escaped KeyboardInterrupt, df',
          out ++ [PrintMonitoringError e; Sleep 60])
    else let '(st, d, out') := run rest df' in
         (st, d, (out ++ [PrintMonitoringError e; Sleep 60]) ++ out').
Proof.
  intros Hit He. cbn [monitor]. rewrite Hit.
  destruct e; try discriminate; reflexivity.
Qed.

(** C8. (1) A pass whose try block raises an error is caught at the
    [except Exception] clause: the error is printed, the loop waits 60
    seconds and goes on with the next pass exactly as from the loop head;
    the loop does not end there. (2) Whatever the passes do, nothing but a
    [KeyboardInterrupt] ever leaves the loop. (3) As long as the user does
    not press Ctrl+C the loop is still running after any number of passes,
    failed or not, and each pass reached one wait. *)
Theorem monitor_errors_never_escape (ticks : list Tick) (df : DataFrame) :
  (∀ tk rest e df' out,
     pass tk df = (Raise e, df', out) →
     is_Exception e = true →
     handler_interrupted tk = false →
     run (tk :: rest) df =
       let '(st, d, out') := run rest df' in
       (st, d, (out ++ [PrintMonitoringError e; Sleep 60]) ++ out')) ∧
  (∀ e, (run ticks df).1.1 = Escaped e → is_Exception e = false) ∧
  (Forall (λ tk, ctrl_c tk = false) ticks →
   (run ticks df).1.1 = Running ∧
   waits (run ticks df).2 = length ticks).
Proof.
  split; [|split].
  - intros tk rest e df' out Hit He Hh.
    rewrite (monitor_cons_raise tk rest df df' e out Hit He). by rewrite Hh.
  - revert df. induction ticks as [|tk rest IH]; intros df e;
      [discriminate|].
    cbn [monitor].
    destruct (pass tk df) as [[[[]|e'] df'] out].
    + specialize (IH df' e).
      destruct (run rest df') as [[st d] out']. exact IH.
    + specialize (IH df' e).
      destruct e'; try (destruct (handler_interrupted tk);
        [simpl; by intros [= <-]
        |destruct (run rest df') as [[st d] out']; exact IH]).
      discriminate.
  - revert df. induction ticks as [|tk rest IH]; intros df Hcalm;
      [done|].
    apply Forall_cons in Hcalm as [Hc Hrest].
    destruct (iteration_calm tk df Hc) as (r & df' & out & Hit & Hr).
    specialize (IH df' Hrest).
    destruct r as [[]|e].
    + cbn [monitor]. rewrite Hit.
      destruct (run rest df') as [[st d] out']. simpl in *.
      rewrite waits_app. destruct IH as [-> ->]. by rewrite Hr.
    + destruct Hr as [He Hw].
      rewrite (monitor_cons_raise tk rest df df' e out Hit He).
      unfold ctrl_c in Hc.
      apply orb_false_elim in Hc as [Hc _].
      apply orb_false_elim in Hc as [Hc _].
      apply orb_false_elim in Hc as [_ ->].
      destruct (run rest df') as [[st d] out']. simpl in *.
      rewrite !waits_app, Hw. destruct IH as [-> ->]. done.
Qed.

End Loop.

Lemma monitor_errors_never_escape_witness :
  (monitor sort_values_stable toy_ta "AAPL"
     [failed_fetch_tick; failed_compute_tick; quiet_tick] three_days).1.1
    = Running ∧
  waits (monitor sort_values_stable toy_ta "AAPL"
           [failed_fetch_tick; failed_compute_tick; quiet_tick] three_days).2
    = 3%nat.
Proof.
  apply (monitor_errors_never_escape sort_values_stable toy_ta "AAPL"
           [failed_fetch_tick; failed_compute_tick; quiet_tick] three_days).
  repeat constructor.
Defined.

(** What the three passes print and wait for. *)
Example monitor_three_passes :
  (monitor sort_values_stable toy_ta "AAPL"
     [failed_fetch_tick; failed_compute_tick; quiet_tick] three_days).2 =
  [PrintLiveDataError (LibraryError "connection reset");
   PrintSignal (day 730) "AAPL" BUY; Sleep 60;
   PrintMonitoringError (ValueError "window"); Sleep 60;
   PrintSignal (day 730) "AAPL" BUY; Sleep 60].
Proof. reflexivity. Qed.

(** ** Feeding a returned frame back in

    Line 171 hands [get_indicator_data] the frame its previous call returned
    (merged with the live rows). *)

Lemma sorted_same_dates (R : Z → Z → Prop) (l l' : DataFrame) :
  Date <$> l = Date <$> l' →
  Sorted (λ a b, R (Date a) (Date b)) l' →
  Sorted (λ a b, R (Date a) (Date b)) l.
Proof.
  revert l'. induction l as [|x l IH]; intros [|x' l'] E Hs; try done.
  simpl in E. injection E as Ex El. apply Sorted_inv in Hs as [Hs Hd].
  constructor; [eauto|].
  destruct l as [|y l], l' as [|y' l']; try done; constructor.
  simpl in El. injection El as Ey _. apply HdRel_inv in Hd.
  by rewrite Ex, Ey.
Qed.

Lemma ascending_unique_dates_strict (l : DataFrame) :
  ascending l → NoDup (Date <$> l) → strictly_ascending l.
Proof.
  intros Hs Hnd. apply (Sorted_StronglySorted _) in Hs.
  apply StronglySorted_Sorted.
  induction Hs as [|x l Hs IH Hall]; [constructor|].
  simpl in Hnd. apply NoDup_cons in Hnd as [Hx Hnd].
  constructor; [auto|].
  rewrite Forall_forall in *. intros y Hy. specialize (Hall _ Hy).
  unfold date_le, date_lt in *.
  destruct (decide (Date x = Date y)) as [E|]; [|lia].
  exfalso. apply Hx. rewrite E. apply list_elem_of_fmap. eauto.
Qed.

Lemma filter_all {A} (P : A → Prop) `{∀ x, Decision (P x)} (l : list A) :
  Forall P l → filter P l = l.
Proof.
  induction 1 as [|x l Hx Hl IH]; [done|].
  rewrite filter_cons. case_decide; [by rewrite IH|done].
Qed.

Lemma assign_column_lookup set values (d : DataFrame) (i : nat) :
  assign_column set values d !! i = set (default nan (values !! i)) <$> d !! i.
Proof.
  unfold assign_column.
  by rewrite (list_lookup_imap (λ i r, set (default nan (values !! i)) r)).
Qed.

(** Assigning the seven columns twice is assigning them once. *)
Lemma indicator_columns_idemp ta (d : DataFrame) :
  indicator_columns ta (indicator_columns ta d) = indicator_columns ta d.
Proof.
  destruct (indicator_columns_spec ta d) as (_ & Hclose & _). cbv zeta in Hclose.
  apply list_eq. intros i.
  unfold indicator_columns at 1. rewrite Hclose.
  unfold indicator_columns. rewrite !assign_column_lookup.
  destruct (d !! i) as [r|]; [|done]. by destruct r.
Qed.

Section FeedBack.

Context (sort_values : DataFrame → DataFrame) (ta : TA).
Context (Hsort : sorts_by_date sort_values).

Lemma sort_values_strict_id (d : DataFrame) :
  strictly_ascending d → sort_values d = d.
Proof.
  intros Hd. apply (Sorted_unique date_lt); [|done|].
  - apply ascending_unique_dates_strict.
    + apply (sort_values_ascending _ Hsort).
    + rewrite (sort_values_perm _ Hsort d).
      by apply strictly_ascending_dates_NoDup.
  - apply (sort_values_perm _ Hsort).
Qed.

(** When the frame has one row per date and every row is inside the window,
    the call returns all rows, and a second call on what it returned (same
    clock reading) returns the very same frame. *)
Lemma indicator_frame_fed_back (today : Z) (d : DataFrame) :
  NoDup (Date <$> d) →
  Forall (in_window today) d →
  indicator_frame sort_values ta today d =
    indicator_columns ta (sort_values d) ∧
  indicator_frame sort_values ta today
    (indicator_frame sort_values ta today d) =
    indicator_frame sort_values ta today d.
Proof.
  intros Hnd Hwin.
  set (X := sort_values d). set (F := indicator_columns ta X).
  destruct (indicator_columns_spec ta X) as (Hdates & _). cbv zeta in Hdates.
  fold F in Hdates.
  assert (strictly_ascending X) as HX.
  { apply ascending_unique_dates_strict.
    - apply (sort_values_ascending _ Hsort).
    - subst X. by rewrite (sort_values_perm _ Hsort d). }
  assert (strictly_ascending F) as HF
    by (by apply (sorted_same_dates Z.lt F X)).
  assert (Forall (in_window today) F) as HwinF.
  { rewrite Forall_forall in *. intros r Hr.
    assert (Date r ∈ Date <$> F) as H by (apply list_elem_of_fmap; eauto).
    rewrite Hdates in H. apply list_elem_of_fmap in H as (r' & E & Hr').
    subst X. rewrite (sort_values_perm _ Hsort d) in Hr'.
    specialize (Hwin r' Hr'). unfold in_window in *. by rewrite E. }
  assert (indicator_frame sort_values ta today d = F) as E.
  { rewrite indicator_frame_spec. by apply filter_all. }
  split; [done|]. rewrite E, indicator_frame_spec.
  rewrite (sort_values_strict_id F HF).
  subst F. rewrite indicator_columns_idemp. by apply filter_all.
Qed.

End FeedBack.

(** With rows outside the window the second call sees less history than the
    first one did: on [three_days] the running sum at day 700 is 33 over the
    three stored days, and 12 once the returned frame is fed back. *)
Example indicator_frame_fed_back_truncated :
  SMA_20 <$> indicator_frame sort_values_stable running_ta (day 730) three_days
    = [33%float] ∧
  SMA_20 <$> indicator_frame sort_values_stable running_ta (day 730)
    (indicator_frame sort_values_stable running_ta (day 730) three_days)
    = [12%float].
Proof. split; reflexivity. Qed.

Lemma update_df_incoming_wins_if_stable_witness :
  rows_on (day 17) (update_df sort_values_stable store_20 (Some restated_20))
    = [price_row (day 17) 12 100].
Proof.
  apply (update_df_incoming_wins_if_stable sort_values_stable
           store_20 restated_20 (day 17) (price_row (day 17) 12 100)
           sort_values_stable_keeps_tie_order).
  reflexivity.
Defined.

Lemma indicator_frame_fed_back_witness :
  indicator_frame sort_values_stable running_ta (day 730)
    (indicator_frame sort_values_stable running_ta (day 730) recent_days) =
  indicator_frame sort_values_stable running_ta (day 730) recent_days.
Proof.
  apply (indicator_frame_fed_back sort_values_stable running_ta
           sort_values_stable_sorts (day 730) recent_days).
  - apply (bool_decide_unpack _). vm_compute. exact I.
  - apply (bool_decide_unpack _). vm_compute. exact I.
Defined.

(* ===================================================================== *)
(** * Part III. Further properties of the code                             *)
(* ===================================================================== *)

(** ** [get_stock_data] *)

Lemma require_columns_ok (h : History) (cs : list string) :
  require_columns h cs = Ok tt ↔ Forall (λ c, has_column h c = true) cs.
Proof.
  unfold require_columns. induction cs as [|c cs IH].
  - split; [constructor|done].
  - rewrite filter_cons. destruct (has_column h c) eqn:Hc.
    + case_decide; [done|]. rewrite IH. split.
      * by constructor.
      * by inversion 1.
    + case_decide; [|done]. split; [done|]. inversion 1. congruence.
Qed.

Lemma require_columns_raises (h : History) (cs : list string) (e : exn) :
  require_columns h cs = Raise e → ∃ c, e = KeyError c ∧ has_column h c = false.
Proof.
  unfold require_columns.
  destruct (filter _ cs) as [|c l] eqn:E; [discriminate|].
  intros [= <-]. exists c. split; [done|].
  assert (c ∈ filter (λ c, has_column h c = false) cs) as Hin
    by (rewrite E; left).
  apply list_elem_of_filter in Hin. tauto.
Qed.

Lemma adj_close_col_found (h : History) (c : string) (cs : list string) :
  filter (has_column h) ["Adj Close"; "Adj.Close"] = c :: cs →
  has_column h c = true ∧
  (has_column h "Adj Close" = true ∨ has_column h "Adj.Close" = true).
Proof.
  intros E.
  assert (c ∈ filter (has_column h) ["Adj Close"; "Adj.Close"]) as Hin
    by (rewrite E; left).
  apply list_elem_of_filter in Hin as [Hc Hin]. apply Is_true_true in Hc.
  split; [done|].
  apply elem_of_cons in Hin as [->|Hin]; [by left|].
  apply elem_of_cons in Hin as [->|Hin]; [by right|].
  by apply not_elem_of_nil in Hin.
Qed.

Lemma adj_close_col_missing (h : History) :
  filter (has_column h) ["Adj Close"; "Adj.Close"] = [] →
  has_column h "Adj Close" = false ∧ has_column h "Adj.Close" = false.
Proof.
  intros E. split.
  - destruct (has_column h "Adj Close") eqn:H1; [|done].
    assert ("Adj Close" ∈ filter (has_column h) ["Adj Close"; "Adj.Close"])
      as Hin.
    { apply list_elem_of_filter. split; [by apply Is_true_true|]. left. }
    rewrite E in Hin. by apply not_elem_of_nil in Hin.
  - destruct (has_column h "Adj.Close") eqn:H1; [|done].
    assert ("Adj.Close" ∈ filter (has_column h) ["Adj Close"; "Adj.Close"])
      as Hin.
    { apply list_elem_of_filter. split; [by apply Is_true_true|].
      right; left. }
    rewrite E in Hin. by apply not_elem_of_nil in Hin.
Qed.

(** [get_stock_data] returns a frame exactly when the source answered with
    at least one quote, a ['Date'] and a ['Volume'] column and an adjusted
    close column under one of its two names; the frame then has one row per
    quote, in the order of the source, holding the date, the adjusted close
    and the volume, and no derived column yet. *)
Theorem get_stock_data_ok_iff (fetched : result History) (df : DataFrame) :
  get_stock_data fetched = Ok df ↔
  ∃ h, fetched = Ok h ∧ quotes h ≠ [] ∧
       (has_column h "Adj Close" = true ∨ has_column h "Adj.Close" = true) ∧
       has_column h "Date" = true ∧ has_column h "Volume" = true ∧
       df = (λ q, price_row (q_Date q) (q_Adj_Close q) (q_Volume q))
              <$> quotes h.
Proof.
  unfold get_stock_data. split.
  - destruct fetched as [h|e]; simpl;
      [|destruct (is_Exception e); discriminate].
    intros H. exists h. split; [done|].
    destruct (quotes h) as [|q qs]; [discriminate|]. split; [done|].
    destruct (filter (has_column h) ["Adj Close"; "Adj.Close"])
      as [|c cs] eqn:E; [discriminate|].
    apply adj_close_col_found in E as [Hc Hadj].
    destruct (require_columns h ["Date"; c; "Volume"]) as [[]|e] eqn:Hreq;
      simpl in H; [|destruct (is_Exception e); discriminate].
    apply require_columns_ok in Hreq.
    apply Forall_cons in Hreq as [Hd Hreq].
    apply Forall_cons in Hreq as [_ Hreq].
    apply Forall_cons in Hreq as [Hv _].
    inversion H. auto 10.
  - intros (h & -> & Hq & Hadj & Hd & Hv & ->). simpl.
    destruct (quotes h) as [|q qs]; [done|].
    destruct (filter (has_column h) ["Adj Close"; "Adj.Close"])
      as [|c cs] eqn:E.
    + exfalso. apply adj_close_col_missing in E. destruct Hadj; intuition congruence.
    + apply adj_close_col_found in E as [Hc _].
      assert (require_columns h ["Date"; c; "Volume"] = Ok tt) as ->; [|done].
      apply require_columns_ok. by repeat constructor.
Qed.



(** ** [get_live] *)


(** Lines 169-170 together: when the live fetch fails with an error, sends
    no quote, or lacks one of the three columns, the merge returns the frame
    it was given, untouched. *)
Theorem update_df_after_failed_fetch (sort_values : DataFrame → DataFrame)
    (fetched : result History) (live_data : option DataFrame)
    (out : list event) (df : DataFrame) :
  get_live fetched = (Ok live_data, out) →
  (∃ e, fetched = Raise e) ∨
  (∃ h, fetched = Ok h ∧
        (quotes h = [] ∨
         Exists (λ c, has_column h c = false) ["Date"; "Close"; "Volume"])) →
  live_data = None ∧ update_df sort_values df live_data = df.
Proof.
  intros Hlive Hbad. unfold get_live in Hlive.
  assert (live_data = None) as ->; [|done].
  destruct Hbad as [[e ->] | (h & -> & [Hq | Hex])]; simpl in Hlive.
  - destruct (is_Exception e); by inversion Hlive.
  - rewrite Hq in Hlive. by inversion Hlive.
  - destruct (quotes h); [by inversion Hlive|].
    destruct (require_columns h ["Date"; "Close"; "Volume"]) as [[]|e] eqn:E;
      simpl in Hlive.
    + exfalso. apply require_columns_ok in E.
      apply Exists_exists in Hex as (c & Hin & Hc).
      rewrite Forall_forall in E. specialize (E c Hin). congruence.
    + apply require_columns_raises in E as (c & -> & _). by inversion Hlive.
Qed.

Lemma update_df_after_failed_fetch_witness :
  update_df sort_values_stable three_days None = three_days.
Proof.
  apply (update_df_after_failed_fetch sort_values_stable
           (Raise (LibraryError "connection reset")) None
           [PrintLiveDataError (LibraryError "connection reset")] three_days).
  - reflexivity.
  - left. eauto.
Defined.

(** ** More on [update_df] *)

Lemma drop_duplicates_last_strict_id (d : DataFrame) :
  strictly_ascending d → drop_duplicates_last d = d.
Proof.
  intros Hs. apply (Sorted_StronglySorted _) in Hs.
  induction Hs as [|r d Hs IH Hall]; simpl; [done|].
  case_bool_decide as Hex; [|by rewrite IH].
  exfalso. apply Exists_exists in Hex as (r' & Hr' & E).
  rewrite Forall_forall in Hall. specialize (Hall _ Hr').
  unfold date_lt in Hall. lia.
Qed.

Lemma frames_eq_by_dates (a b : DataFrame) :
  strictly_ascending a → strictly_ascending b →
  (∀ date, rows_on date a = rows_on date b) → a = b.
Proof.
  intros Ha Hb Hrows. apply (Sorted_unique date_lt); [done..|].
  apply NoDup_Permutation; [by apply strictly_ascending_NoDup..|].
  intros r. split; intros Hr.
  - assert (r ∈ rows_on (Date r) a) as H by (by apply elem_of_rows_on).
    rewrite Hrows in H. apply elem_of_rows_on in H. tauto.
  - assert (r ∈ rows_on (Date r) b) as H by (by apply elem_of_rows_on).
    rewrite <- Hrows in H. apply elem_of_rows_on in H. tauto.
Qed.

Section MergeMore.

Context (sort_values : DataFrame → DataFrame).
Context (Hsort : sorts_by_date sort_values).

(** New trading days are appended: when the live rows are dated after every
    stored row and the whole is strictly ascending, the merge is the store
    followed by the live rows, with no row dropped, changed or moved. *)
Theorem update_df_appends_new_days (df live : DataFrame) :
  strictly_ascending (df ++ live) →
  update_df sort_values df (Some live) = df ++ live.
Proof.
  intros Hs. destruct live as [|r live]; [by rewrite app_nil_r|].
  cbn [update_df].
  rewrite (sort_values_strict_id sort_values Hsort _ Hs).
  by apply drop_duplicates_last_strict_id.
Qed.

(** The loop fetches the same two days again every minute. With a sort that
    keeps the order of equal dates, merging the same live data a second time
    changes nothing. *)
Theorem update_df_same_live_twice (df live : DataFrame) :
  keeps_tie_order sort_values →
  update_df sort_values (update_df sort_values df (Some live)) (Some live) =
  update_df sort_values df (Some live).
Proof.
  intros Hstable. destruct live as [|r0 live0]; [done|].
  set (live := r0 :: live0). assert (live ≠ []) as Hne by done.
  set (M := update_df sort_values df (Some live)).
  apply frames_eq_by_dates; [by apply update_df_merge_strict..|].
  intros date.
  assert (∀ x, rows_on date (update_df sort_values x (Some live)) =
               option_list (last (rows_on date x ++ rows_on date live)))
    as Hrows.
  { intros x. subst live. cbn [update_df].
    by rewrite rows_on_drop_duplicates_last, Hstable, rows_on_app. }
  rewrite Hrows. subst M. rewrite Hrows.
  rewrite !last_app.
  destruct (last (rows_on date live)) as [l|]; [done|].
  by destruct (last (rows_on date df)).
Qed.

End MergeMore.

Lemma update_df_appends_new_days_witness :
  update_df sort_values_stable store_with_gap (Some [price_row (day 5) 13 90])
  = store_with_gap ++ [price_row (day 5) 13 90].
Proof.
  apply (update_df_appends_new_days sort_values_stable
           sort_values_stable_sorts).
  repeat constructor.
Defined.

Lemma update_df_same_live_twice_witness :
  update_df sort_values_stable
    (update_df sort_values_stable store_with_gap (Some backfill))
    (Some backfill) =
  update_df sort_values_stable store_with_gap (Some backfill).
Proof.
  apply (update_df_same_live_twice sort_values_stable
           sort_values_stable_sorts store_with_gap backfill
           sort_values_stable_keeps_tie_order).
Defined.

(** ** More on [predict_signal] *)

Lemma ltb_zero_exclusive (x : float) :
  PrimFloat.ltb x 0 = true → PrimFloat.ltb 0 x = false.
Proof.
  rewrite !FloatAxioms.ltb_spec. change (Prim2SF 0) with (S754_zero false).
  unfold SFltb, SFcompare.
  destruct (Prim2SF x) as [s|s| |s m e]; try destruct s; try discriminate;
    reflexivity.
Qed.

Lemma py_lt_gt_zero_exclusive (m : pyval) :
  py_lt m (PyInt 0) = Ok true → py_gt m (PyInt 0) = Ok false.
Proof.
  unfold py_lt, py_gt, py_cmp. destruct m as [x|z|ns|]; try discriminate.
  - change (float_of_Z 0) with 0%float. intros [= H].
    by rewrite (ltb_zero_exclusive x H).
  - intros [= H]. f_equal. apply Z.ltb_lt in H.
    rewrite Z.gtb_ltb. apply Z.ltb_ge. lia.
Qed.

Lemma py_and_true_l (a b : result bool) : py_and a b = Ok true → a = Ok true.
Proof. destruct a as [[]|]; simpl; [done|discriminate..]. Qed.

(** The two rules exclude each other: a row that meets the SELL rule makes
    the BUY rule plainly false (its macd is negative), so the order in which
    line 145 and line 147 test them never decides the answer. The signal is
    BUY exactly when the BUY rule holds and SELL exactly when the SELL rule
    holds. *)
Theorem predict_signal_rules_exclusive (row : gmap string pyval) :
  (sell_rule row = Ok true → buy_rule row = Ok false) ∧
  (predict_signal row = BUY ↔ buy_rule row = Ok true) ∧
  (predict_signal row = SELL ↔ sell_rule row = Ok true).
Proof.
  assert (sell_rule row = Ok true → buy_rule row = Ok false) as Hex.
  { unfold sell_rule, buy_rule. intros H. apply py_and_true_l in H.
    unfold getitem in *. destruct (row !! "MACD") as [m|]; [|discriminate].
    simpl in *. by rewrite (py_lt_gt_zero_exclusive m H). }
  split; [done|]. split; (split; [auto using predict_signal_BUY,
                                    predict_signal_SELL|]).
  - intros H. unfold predict_signal, predict_signal_body. by rewrite H.
  - intros H. unfold predict_signal, predict_signal_body.
    by rewrite (Hex H), H.
Qed.

Lemma predict_signal_rules_exclusive_witness :
  buy_rule sell_row = Ok false ∧ predict_signal sell_row = SELL.
Proof.
  destruct (predict_signal_rules_exclusive sell_row) as (H1 & _ & H2).
  split; [apply H1 | apply H2]; reflexivity.
Defined.

Lemma to_series_fields (r : Row) :
  to_series r !! "MACD" = Some (PyFloat (MACD r)) ∧
  to_series r !! "RSI_14" = Some (PyFloat (RSI_14 r)) ∧
  to_series r !! "Adj_Close" = Some (PyFloat (Adj_Close r)) ∧
  to_series r !! "Bollinger_Lower" = Some (PyFloat (Bollinger_Lower r)) ∧
  to_series r !! "Bollinger_Upper" = Some (PyFloat (Bollinger_Upper r)).
Proof. repeat split; reflexivity. Qed.

(** Lines 173-174 together: on the last row of a frame the [try] block of
    [predict_signal] never raises, so the bare [except] is not what produces
    the answer; and the answer is HOLD whenever that row's MACD or RSI_14 is
    missing, or both of its bands are, as on a row whose derived columns have
    never been computed. *)
Theorem predict_signal_on_frame_row (d : DataFrame) (latest : gmap string pyval) :
  iloc_last d = Ok latest →
  ∃ r, last d = Some r ∧ latest = to_series r ∧
       predict_signal_body latest = Ok (predict_signal latest) ∧
       (MACD r = nan ∨ RSI_14 r = nan ∨ Adj_Close r = nan ∨
        (Bollinger_Lower r = nan ∧ Bollinger_Upper r = nan) →
        predict_signal latest = HOLD).
Proof.
  unfold iloc_last. destruct (last d) as [r|]; [|discriminate].
  intros [= <-]. exists r. split; [done|]. split; [done|].
  destruct (to_series_fields r) as (Hm & Hr & Hc & Hl & Hu).
  split.
  - unfold predict_signal.
    by rewrite (predict_signal_body_floats _ _ _ _ _ _ Hm Hr Hc Hl Hu).
  - intros H. apply predict_signal_HOLD;
      [apply buy_rule_fails | apply sell_rule_fails]; unfold undefined.
    + destruct H as [E | [E | [E | [E _]]]]; rewrite E in *; auto 10.
    + destruct H as [E | [E | [E | [_ E]]]]; rewrite E in *; auto 10.
Qed.

Lemma predict_signal_on_frame_row_witness :
  ∃ r, last backfill = Some r ∧
       predict_signal (to_series r) = HOLD.
Proof.
  destruct (predict_signal_on_frame_row backfill
              (to_series (price_row (day 4) 12.5 180)) eq_refl)
    as (r & Hlast & _ & _ & Hhold).
  exists r. split; [exact Hlast|].
  injection Hlast as <-. apply Hhold. left. reflexivity.
Defined.

(** ** The shape of what [get_indicator_data] returns *)

Lemma sorted_filter {A} (R : relation A) `{!Transitive R} (P : A → Prop)
    `{∀ x, Decision (P x)} (l : list A) :
  Sorted R l → Sorted R (filter P l).
Proof.
  intros Hs. apply (Sorted_StronglySorted _) in Hs.
  apply StronglySorted_Sorted.
  induction Hs as [|x l Hs IH Hall]; [constructor|].
  rewrite filter_cons. case_decide; [|done].
  constructor; [done|].
  rewrite Forall_forall in *. intros y Hy.
  apply list_elem_of_filter in Hy. apply Hall. tauto.
Qed.

Lemma same_base_dates (d1 d2 : DataFrame) :
  same_base d1 d2 → Date <$> d1 = Date <$> d2.
Proof.
  induction 1 as [|a b l k E _ IH]; [done|].
  simpl. f_equal; [|done]. by injection E.
Qed.

Lemma same_base_fmap (d1 d2 : DataFrame) :
  same_base d1 d2 → base_columns <$> d1 = base_columns <$> d2.
Proof.
  induction 1 as [|a b l k E _ IH]; [done|]. simpl. by f_equal.
Qed.

Lemma same_base_filter (today : Z) (d1 d2 : DataFrame) :
  same_base d1 d2 →
  same_base (filter (in_window today) d1) (filter (in_window today) d2).
Proof.
  apply Forall2_filter. intros a b E. unfold in_window.
  injection E as -> _ _. done.
Qed.

Lemma indicator_columns_same_base ta (d : DataFrame) :
  same_base (indicator_columns ta d) d.
Proof.
  apply Forall2_same_length_lookup. split.
  - unfold indicator_columns. by rewrite !length_assign_column.
  - intros i a b Ha Hb. unfold indicator_columns in Ha.
    rewrite !assign_column_lookup, Hb in Ha. simpl in Ha.
    injection Ha as <-. by destruct b.
Qed.

Lemma ascending_last_is_latest (d : DataFrame) (r : Row) :
  ascending d → last d = Some r → ∀ r', r' ∈ d → Date r' ≤ Date r.
Proof.
  intros Hs. apply (Sorted_StronglySorted _) in Hs.
  induction Hs as [|x l Hs IH Hall]; [done|].
  intros Hlast r' Hr'. destruct l as [|y l].
  - injection Hlast as <-. apply list_elem_of_singleton in Hr' as ->. lia.
  - change (last (x :: y :: l)) with (last (y :: l)) in Hlast.
    apply elem_of_cons in Hr' as [->|Hr']; [|auto].
    rewrite Forall_forall in Hall.
    assert (r ∈ y :: l) as Hr.
    { apply last_Some in Hlast as [l' ->]. apply elem_of_app. right. left. }
    apply (Hall r Hr).
Qed.

Section Shape.

Context (sort_values : DataFrame → DataFrame) (ta : TA).
Context (Hsort : sorts_by_date sort_values).

Lemma indicator_frame_same_base (today : Z) (d : DataFrame) :
  same_base (indicator_frame sort_values ta today d)
            (filter (in_window today) (sort_values d)).
Proof.
  rewrite indicator_frame_spec.
  apply same_base_filter, indicator_columns_same_base.
Qed.

Lemma indicator_frame_ascending (today : Z) (d : DataFrame) :
  ascending (indicator_frame sort_values ta today d).
Proof.
  apply (sorted_same_dates Z.le _ (filter (in_window today) (sort_values d))).
  - apply same_base_dates, indicator_frame_same_base.
  - apply (sorted_filter date_le), (sort_values_ascending _ Hsort).
Qed.

Lemma indicator_frame_in_window (today : Z) (d : DataFrame) :
  Forall (in_window today) (indicator_frame sort_values ta today d).
Proof.
  rewrite indicator_frame_spec. apply Forall_forall. intros r Hr.
  apply list_elem_of_filter in Hr. tauto.
Qed.

Lemma indicator_frame_strict (today : Z) (d : DataFrame) :
  strictly_ascending d →
  strictly_ascending (indicator_frame sort_values ta today d).
Proof.
  intros Hd.
  apply (sorted_same_dates Z.lt _ (filter (in_window today) (sort_values d))).
  - apply same_base_dates, indicator_frame_same_base.
  - rewrite (sort_values_strict_id sort_values Hsort d Hd).
    by apply (sorted_filter date_lt).
Qed.

(** What a call returns, seen from the input: the input rows sorted by date
    and cut to the window, with their dates, closes and volumes as they
    were. So the result is in ascending date order, lies wholly inside the
    365 days before the clock reading, is never longer than the input, and
    is empty for an empty input, without an error. *)
Theorem indicator_frame_shape (today : Z) (d : DataFrame) :
  let out := indicator_frame sort_values ta today d in
  base_columns <$> out =
    base_columns <$> filter (in_window today) (sort_values d) ∧
  ascending out ∧
  Forall (in_window today) out ∧
  (length out ≤ length d)%nat ∧
  (d = [] → out = []).
Proof.
  intros out. subst out.
  pose proof (indicator_frame_same_base today d) as Hbase.
  assert (length (indicator_frame sort_values ta today d) ≤ length d)%nat
    as Hlen.
  { rewrite (Forall2_length _ _ _ Hbase).
    etrans; [apply length_filter|].
    by rewrite (sort_values_perm _ Hsort d). }
  split; [|split; [|split; [|split]]].
  - by apply same_base_fmap.
  - apply indicator_frame_ascending.
  - apply indicator_frame_in_window.
  - done.
  - intros ->. simpl in Hlen.
    destruct (indicator_frame sort_values ta today []); [done|simpl in Hlen; lia].
Qed.

End Shape.

Lemma indicator_frame_shape_witness :
  base_columns <$> indicator_frame sort_values_stable toy_ta (day 730) three_days
    = [(day 700, 12%float, 100)] ∧
  (length (indicator_frame sort_values_stable toy_ta (day 730) three_days)
     ≤ 3)%nat.
Proof.
  destruct (indicator_frame_shape sort_values_stable toy_ta
              sort_values_stable_sorts (day 730) three_days)
    as (Hbase & _ & _ & Hlen & _).
  split; [exact Hbase | exact Hlen].
Defined.

(** ** More on the monitoring loop *)

Lemma update_df_strict (sort_values : DataFrame → DataFrame)
    (df : DataFrame) (live_data : option DataFrame) :
  sorts_by_date sort_values →
  strictly_ascending df →
  strictly_ascending (update_df sort_values df live_data).
Proof.
  intros Hsort Hdf. destruct live_data as [[|r live]|]; try done.
  by apply update_df_merge_strict.
Qed.

Section LoopMore.

Context (sort_values : DataFrame → DataFrame) (ta : TA) (ticker : string).
Context (Hsort : sorts_by_date sort_values).

#[local] Abbreviation pass := (iteration sort_values ta ticker).
#[local] Abbreviation run := (monitor sort_values ta ticker).

Lemma iteration_lines (tk : Tick) (df : DataFrame) :
  Forall pass_line (pass tk df).2.
Proof.
  unfold iteration.
  destruct (get_live_outcome (fetched tk))
    as [[live ->] | [(e & _ & _ & ->) | [(e & h & _ & _ & ->) | [_ ->]]]];
    [| | |by constructor].
  all: destruct (library_fault tk); simpl; [by repeat constructor|].
  all: destruct (iloc_last _); simpl; [|by repeat constructor].
  all: destruct (interrupted tk); simpl; by repeat constructor.
Qed.

Lemma iteration_strict (tk : Tick) (df : DataFrame) :
  strictly_ascending df → strictly_ascending (pass tk df).1.2.
Proof.
  intros Hdf. unfold iteration.
  destruct (get_live (fetched tk)) as [[live|e] out]; [|done].
  pose proof (update_df_strict sort_values df live Hsort Hdf) as Hm.
  destruct (library_fault tk); [done|].
  pose proof (indicator_frame_strict sort_values ta Hsort (today tk) _ Hm)
    as Hi.
  destruct (iloc_last _); [|done]. by destruct (interrupted tk).
Qed.

(** The signal of a pass is the signal of the most recent day. When a pass
    completes, the frame it leaves is not empty, its last row carries the
    latest date of the frame and lies inside the window, and the line
    printed just before the wait is the signal computed from that row. *)
Theorem iteration_signal_is_latest (tk : Tick) (df df' : DataFrame)
    (out : list event) :
  pass tk df = (Ok tt, df', out) →
  ∃ r pre,
    last df' = Some r ∧
    (∀ r', r' ∈ df' → Date r' ≤ Date r) ∧
    in_window (today tk) r ∧
    out = pre ++ [PrintSignal (now tk) ticker (predict_signal (to_series r));
                  Sleep 60].
Proof.
  unfold iteration.
  destruct (get_live (fetched tk)) as [[live|e] pre]; [|discriminate].
  destruct (library_fault tk); [discriminate|].
  set (d := indicator_frame sort_values ta (today tk)
              (update_df sort_values df live)).
  assert (ascending d) as Hasc by apply (indicator_frame_ascending _ _ Hsort).
  assert (Forall (in_window (today tk)) d) as Hwin
    by apply indicator_frame_in_window.
  unfold iloc_last. destruct (last d) as [r|] eqn:Hlast; [|discriminate].
  destruct (interrupted tk); [discriminate|].
  intros [= <- <-]. exists r, pre. split; [done|]. split; [|split; [|done]].
  - by apply ascending_last_is_latest.
  - rewrite Forall_forall in Hwin. apply Hwin.
    apply last_Some in Hlast as [l' ->]. apply elem_of_app. right. left.
Qed.

(** The loop keeps the store ordered: started on a frame with strictly
    increasing dates, it holds such a frame after any number of passes,
    whatever the fetches returned and whichever passes failed. *)
Theorem monitor_keeps_order (ticks : list Tick) (df : DataFrame) :
  strictly_ascending df → strictly_ascending (run ticks df).1.2.
Proof.
  revert df. induction ticks as [|tk rest IH]; intros df Hdf; [done|].
  cbn [monitor].
  pose proof (iteration_strict tk df Hdf) as Hit.
  destruct (pass tk df) as [[[[]|e] df'] out]; simpl in Hit.
  - specialize (IH df' Hit). by destruct (run rest df') as [[st d] out'].
  - destruct e; try done;
      (destruct (handler_interrupted tk); [done|];
       specialize (IH df' Hit); by destruct (run rest df') as [[st d] out']).
Qed.

(** How the loop ends. "Monitoring stopped." is printed exactly when the
    loop is left through [break], and it is then the last line. An exception
    leaves the loop only as a [KeyboardInterrupt] that arrived during the
    wait of the error handler (line 186), right after a "Monitoring error"
    line; "Monitoring stopped." is not printed in that case. *)
Theorem monitor_ending (ticks : list Tick) (df : DataFrame) :
  match run ticks df with
  | (Running, _, out) => PrintMonitoringStopped ∉ out
  | (Stopped, _, out) =>
      ∃ pre, out = pre ++ [PrintMonitoringStopped] ∧
             PrintMonitoringStopped ∉ pre
  | (Escaped e, _, out) =>
      e = KeyboardInterrupt ∧ (PrintMonitoringStopped ∉ out) ∧
      ∃ pre e', out = pre ++ [PrintMonitoringError e'; Sleep 60] ∧
                is_Exception e' = true
  end.
Proof.
  assert (∀ out : list event, Forall pass_line out →
            PrintMonitoringStopped ∉ out) as Hlines.
  { intros out Hall Hin. rewrite Forall_forall in Hall.
    by apply Hall in Hin. }
  assert (∀ (out : list event) e, Forall pass_line out →
            PrintMonitoringStopped ∉ out ++ [PrintMonitoringError e; Sleep 60])
    as Hhandler.
  { intros out e Hall Hin. apply elem_of_app in Hin as [Hin|Hin].
    - by apply Hlines in Hin.
    - repeat (apply elem_of_cons in Hin as [Hin|Hin]; [discriminate|]).
      by apply not_elem_of_nil in Hin. }
  revert df. induction ticks as [|tk rest IH]; intros df.
  { simpl. apply not_elem_of_nil. }
  cbn [monitor].
  pose proof (iteration_lines tk df) as Hout.
  destruct (pass tk df) as [[[[]|e] df'] out]; simpl in Hout.
  - specialize (IH df'). destruct (run rest df') as [[[| |e'] d] out'].
    + intros Hin. apply elem_of_app in Hin as [Hin|Hin]; [|done].
      by apply Hlines in Hin.
    + destruct IH as (pre & -> & Hpre). exists (out ++ pre).
      split; [by rewrite app_assoc|].
      intros Hin. apply elem_of_app in Hin as [Hin|Hin]; [|done].
      by apply Hlines in Hin.
    + destruct IH as (-> & Hno & pre & e'' & -> & He). split; [done|]. split.
      * intros Hin. apply elem_of_app in Hin as [Hin|Hin]; [|done].
        by apply Hlines in Hin.
      * exists (out ++ pre), e''. by rewrite app_assoc.
  - assert (is_Exception e = true →
      match
        (if handler_interrupted tk
         then (Escaped KeyboardInterrupt, df',
               out ++ [PrintMonitoringError e; Sleep 60])
         else let '(st, d, out') := run rest df' in
              (st, d, (out ++ [PrintMonitoringError e; Sleep 60]) ++ out'))
      with
      | (Running, _, o) => PrintMonitoringStopped ∉ o
      | (Stopped, _, o) =>
          ∃ pre, o = pre ++ [PrintMonitoringStopped] ∧
                 PrintMonitoringStopped ∉ pre
      | (Escaped e0, _, o) =>
          e0 = KeyboardInterrupt ∧ (PrintMonitoringStopped ∉ o) ∧
          ∃ pre e', o = pre ++ [PrintMonitoringError e'; Sleep 60] ∧
                    is_Exception e' = true
      end) as Hcaught.
    { intros He. destruct (handler_interrupted tk).
      - split; [done|]. split; [by apply Hhandler|]. by exists out, e.
      - specialize (IH df'). destruct (run rest df') as [[[| |e'] d] out'].
        + intros Hin. apply elem_of_app in Hin as [Hin|Hin]; [|done].
          by apply Hhandler in Hin.
        + destruct IH as (pre & -> & Hpre).
          exists ((out ++ [PrintMonitoringError e; Sleep 60]) ++ pre).
          split; [by rewrite app_assoc|].
          intros Hin. apply elem_of_app in Hin as [Hin|Hin]; [|done].
          by apply Hhandler in Hin.
        + destruct IH as (-> & Hno & pre & e'' & -> & He').
          split; [done|]. split.
          * intros Hin. apply elem_of_app in Hin as [Hin|Hin]; [|done].
            by apply Hhandler in Hin.
          * exists ((out ++ [PrintMonitoringError e; Sleep 60]) ++ pre), e''.
            by rewrite app_assoc. }
    destruct e; try (by apply Hcaught).
    exists out. split; [done|]. by apply Hlines.
Qed.

End LoopMore.

Lemma monitor_keeps_order_witness :
  strictly_ascending
    (monitor sort_values_stable toy_ta "AAPL"
       [failed_fetch_tick; failed_compute_tick; quiet_tick] three_days).1.2.
Proof.
  apply (monitor_keeps_order sort_values_stable toy_ta "AAPL"
           sort_values_stable_sorts).
  repeat constructor.
Defined.

Lemma iteration_signal_is_latest_witness :
  ∃ r pre,
    last three_days_indicated = Some r ∧
    (∀ r', r' ∈ three_days_indicated → Date r' ≤ Date r) ∧
    in_window (day 730) r ∧
    [PrintSignal (day 730) "AAPL" BUY; Sleep 60] =
      pre ++ [PrintSignal (day 730) "AAPL" (predict_signal (to_series r));
              Sleep 60].
Proof.
  apply (iteration_signal_is_latest sort_values_stable toy_ta "AAPL"
           sort_values_stable_sorts quiet_tick three_days
           three_days_indicated [PrintSignal (day 730) "AAPL" BUY; Sleep 60]).
  vm_compute. reflexivity.
Defined.

(** ** The chart of a ticker without volume *)

Lemma div_pos_zero (x : float) :
  PrimFloat.ltb 0 x = true → PrimFloat.div x 0 = infinity.
Proof.
  intros H. apply Prim2SF_inj. rewrite FloatAxioms.div_spec.
  rewrite FloatAxioms.ltb_spec in H.
  change (Prim2SF 0) with (S754_zero false) in *.
  unfold SFltb, SFcompare in H.
  destruct (Prim2SF x) as [s|s| |s m e]; try discriminate;
    destruct s; try discriminate; reflexivity.
Qed.

Lemma foldl_max_zeros (l : list Z) :
  Forall (λ z, z = 0) l → foldl Z.max 0 l = 0.
Proof. induction 1 as [|z l -> _ IH]; [done|]. simpl. exact IH. Qed.

Lemma int_series_max_zeros (l : list Z) :
  l ≠ [] → Forall (λ z, z = 0) l → int_series_max l = 0%float.
Proof.
  destruct l as [|z l]; [done|]. intros _ Hl.
  apply Forall_cons in Hl as [-> Hl]. simpl. by rewrite foldl_max_zeros.
Qed.

Lemma same_base_no_volume (d1 d2 : DataFrame) :
  same_base d1 d2 →
  Forall (λ r, Volume r = 0) d2 → Forall (λ r, Volume r = 0) d1.
Proof.
  induction 1 as [|a b l k E _ IH]; [done|].
  intros Hk. apply Forall_cons in Hk as [Hb Hk].
  constructor; [|auto]. injection E as _ _ ->. done.
Qed.

(** Lines 161-163 on a ticker for which the source reports a volume of 0 on
    every day (and some positive close): the scale factor is +infinity, not
    the 0.0001 of the [except] branch, and every bar of the volume panel of
    the chart is drawn at [nan]. *)
Theorem zero_volume_chart (sort_values : DataFrame → DataFrame) (ta : TA)
    (df : DataFrame) (today : Z) (ticker : string) :
  sorts_by_date sort_values →
  df ≠ [] →
  Forall (λ r, Volume r = 0) df →
  PrimFloat.ltb 0 (series_max (Adj_Close <$> df)) = true →
  calculate_scale_value df = infinity ∧
  ∃ bars,
    last (traces (plot_stock_plotly
                    (indicator_frame sort_values ta today df) ticker
                    (calculate_scale_value df))) = Some bars ∧
    trace_name bars = "Volume" ∧
    length (trace_y bars) =
      length (indicator_frame sort_values ta today df) ∧
    Forall (λ y, y = nan) (trace_y bars).
Proof.
  intros Hsort Hne Hvol Hpos.
  assert (calculate_scale_value df = infinity) as Hscale.
  { unfold calculate_scale_value, np_truediv.
    rewrite int_series_max_zeros; [by apply div_pos_zero| |].
    - by destruct df.
    - apply Forall_fmap. exact Hvol. }
  split; [done|]. rewrite Hscale.
  eexists. split; [reflexivity|]. split; [done|]. simpl.
  split; [apply length_fmap|].
  assert (Forall (λ r, Volume r = 0)
            (indicator_frame sort_values ta today df)) as Hout.
  { apply (same_base_no_volume _ _
             (indicator_frame_same_base sort_values ta today df)).
    apply Forall_forall. intros r Hr.
    apply list_elem_of_filter in Hr as [_ Hr].
    rewrite (sort_values_perm _ Hsort df) in Hr.
    rewrite Forall_forall in Hvol. auto. }
  unfold scaled_volume. apply Forall_fmap.
  eapply Forall_impl; [exact Hout|]. intros r Hr. simpl.
  rewrite Hr. reflexivity.
Qed.

Lemma zero_volume_chart_witness :
  calculate_scale_value zero_volume_frame = infinity ∧
  ∃ bars,
    last (traces (plot_stock_plotly
                    (indicator_frame sort_values_stable toy_ta (day 30)
                       zero_volume_frame) "EURUSD=X"
                    (calculate_scale_value zero_volume_frame))) = Some bars ∧
    trace_name bars = "Volume" ∧
    length (trace_y bars) =
      length (indicator_frame sort_values_stable toy_ta (day 30)
                zero_volume_frame) ∧
    Forall (λ y, y = nan) (trace_y bars).
Proof.
  apply (zero_volume_chart sort_values_stable toy_ta zero_volume_frame
           (day 30) "EURUSD=X" sort_values_stable_sorts).
  - discriminate.
  - repeat constructor.
  - reflexivity.
Defined.

(** ** [main] *)

Lemma monitor_escaped_interrupt sort_values ta ticker (ticks : list Tick)
    (df : DataFrame) (e : exn) :
  (monitor sort_values ta ticker ticks df).1.1 = Escaped e →
  e = KeyboardInterrupt.
Proof.
  revert df. induction ticks as [|tk rest IH]; intros df; [discriminate|].
  cbn [monitor].
  destruct (iteration sort_values ta ticker tk df) as [[[[]|e'] df'] out].
  - specialize (IH df').
    destruct (monitor sort_values ta ticker rest df') as [[st d] out'].
    exact IH.
  - specialize (IH df').
    destruct e'; try discriminate;
      (destruct (handler_interrupted tk); [by intros [= <-]|];
       destruct (monitor sort_values ta ticker rest df') as [[st d] out'];
       exact IH).
Qed.

Lemma monitor_stopped_last sort_values ta ticker (ticks : list Tick)
    (df : DataFrame) :
  (monitor sort_values ta ticker ticks df).1.1 = Stopped →
  last (monitor sort_values ta ticker ticks df).2 = Some PrintMonitoringStopped.
Proof.
  revert df. induction ticks as [|tk rest IH]; intros df; [discriminate|].
  cbn [monitor].
  destruct (iteration sort_values ta ticker tk df) as [[[[]|e'] df'] out].
  - specialize (IH df').
    destruct (monitor sort_values ta ticker rest df') as [[st d] out'].
    simpl in *. intros Hst. rewrite last_app, (IH Hst). done.
  - specialize (IH df').
    destruct e'; try (by intros _; simpl; rewrite last_snoc);
      (destruct (handler_interrupted tk); [discriminate|];
       destruct (monitor sort_values ta ticker rest df') as [[st d] out'];
       simpl in *; intros Hst; by rewrite last_app, (IH Hst)).
Qed.

Section MainTheorems.

Context (sort_values : DataFrame → DataFrame) (ta : TA).

Lemma startup_lines (s : Session) :
  match startup sort_values ta s with
  | (Raise _, out) => out = [] ∨ ∃ t, out = [PrintInitializing t]
  | (Ok (t, _), out) => ∃ fig, out = [PrintInitializing t; ShowFigure fig;
                                       PrintStarting]
  end.
Proof.
  unfold startup. destruct (typed_ticker s) as [t|e]; [|by left].
  destruct (get_stock_data (history_fetch s)); [|right; eauto].
  destruct (plot_fault s); [right; eauto|]. simpl. eauto.
Qed.

(** How a session ends. Exit code 1 means the session failed before the
    loop: the ticker could not be read, the history could not be fetched or
    the chart could not be drawn; "Fatal error" is then the last line and no
    line of the loop was printed. Exit code 0 means the loop was left by
    Ctrl+C, with "Monitoring stopped." as the last line. No other exit code
    occurs, an error of the loop never becomes a fatal error, and the only
    exception that leaves [main] is a [KeyboardInterrupt]. *)
Theorem main_outcomes (s : Session) :
  match main sort_values ta s with
  | (ExitCode code, out) =>
      (code = 0 ∧ last out = Some (Monitoring PrintMonitoringStopped)) ∨
      (code = 1 ∧
       ∃ e, is_Exception e = true ∧
            (startup sort_values ta s).1 = Raise e ∧
            last out = Some (PrintFatalError e) ∧
            (PrintStarting ∉ out) ∧ ∀ ev, Monitoring ev ∉ out)
  | (StillMonitoring, out) =>
      PrintStarting ∈ out ∧ ∀ e, PrintFatalError e ∉ out
  | (Uncaught e, out) => e = KeyboardInterrupt
  end.
Proof.
  unfold main. pose proof (startup_lines s) as Hout.
  destruct (startup sort_values ta s) as [[[ticker df]|e] out].
  - destruct Hout as [fig ->].
    pose proof (monitor_escaped_interrupt sort_values ta ticker (passes s) df)
      as Hesc.
    pose proof (monitor_stopped_last sort_values ta ticker (passes s) df)
      as Hstop.
    destruct (monitor sort_values ta ticker (passes s) df)
      as [[[| |e] d] events]; simpl in *.
    + split.
      * do 2 right. left.
      * intros e Hin.
        repeat (apply elem_of_cons in Hin as [Hin|Hin]; [discriminate|]).
        apply list_elem_of_fmap in Hin as (ev & E & _). discriminate.
    + left. split; [done|].
      specialize (Hstop eq_refl). apply last_Some in Hstop as [pre ->].
      rewrite fmap_app. simpl. by rewrite !app_comm_cons, last_snoc.
    + by rewrite (Hesc e eq_refl).
  - unfold fatal. destruct (is_Exception e) eqn:He.
    + right. split; [done|]. exists e. split; [done|]. split; [done|].
      split; [by rewrite last_snoc|].
      destruct Hout as [-> | [t ->]]; (split; [intros Hin | intros ev Hin]);
        repeat (apply elem_of_cons in Hin as [Hin|Hin]; [discriminate|]);
        by apply not_elem_of_nil in Hin.
    + by destruct e.
Qed.

End MainTheorems.

(** ** Size of the merge, stale stores, and the objects a call creates *)

Lemma length_drop_duplicates_last (d : DataFrame) :
  (length (drop_duplicates_last d) ≤ length d)%nat.
Proof.
  induction d as [|r d IH]; simpl; [done|].
  destruct (bool_decide _); simpl; lia.
Qed.

Lemma filter_none {A} (P : A → Prop) `{∀ x, Decision (P x)} (l : list A) :
  Forall (λ x, ¬ P x) l → filter P l = [].
Proof.
  induction 1 as [|x l Hx _ IH]; [done|].
  rewrite filter_cons. by case_decide.
Qed.

Section Sizes.

Context (sort_values : DataFrame → DataFrame) (ta : TA) (ticker : string).
Context (Hsort : sorts_by_date sort_values).

(** Merging never loses a stored day and never adds more rows than the live
    data has: for an ordered store, the merged frame is at least as long as
    the store and at most as long as store and live data together. *)
Theorem update_df_size (df : DataFrame) (live_data : option DataFrame) :
  strictly_ascending df →
  (length df ≤ length (update_df sort_values df live_data)
   ≤ length df + length (default [] live_data))%nat.
Proof.
  intros Hdf. destruct live_data as [[|r0 live0]|]; simpl default;
    [cbn [update_df]; simpl; lia| |cbn [update_df]; simpl; lia].
  set (live := r0 :: live0). assert (live ≠ []) as Hne by done.
  split.
  - rewrite <- (length_fmap Date df).
    rewrite <- (length_fmap Date (update_df sort_values df (Some live))).
    apply submseteq_length, NoDup_submseteq.
    + by apply strictly_ascending_dates_NoDup.
    + intros date Hin. apply list_elem_of_fmap in Hin as (r & -> & Hr).
      destruct (update_df_merge_keeps_dates sort_values Hsort df live r)
        as (r' & Hr' & <-); [done|apply elem_of_app; tauto|].
      apply list_elem_of_fmap. eauto.
  - subst live. cbn [update_df].
    etrans; [apply length_drop_duplicates_last|].
    by rewrite (sort_values_perm _ Hsort), length_app.
Qed.

(** A store that is wholly older than the window gives no signal: when no
    live data arrives, the pass empties the frame, [iloc[-1]] raises
    [IndexError], and nothing is printed beyond what the fetch printed. The
    loop then logs the error and waits, pass after pass. *)
Theorem iteration_stale_store (tk : Tick) (df : DataFrame)
    (out : list event) :
  get_live (fetched tk) = (Ok None, out) →
  library_fault tk = None →
  Forall (λ r, ¬ in_window (today tk) r) df →
  iteration sort_values ta ticker tk df = (Raise IndexError, [], out) ∧
  ∀ rest,
    monitor sort_values ta ticker (tk :: rest) df =
      if handler_interrupted tk
      then (Escaped KeyboardInterrupt, [],
            out ++ [PrintMonitoringError IndexError; Sleep 60])
      else let '(st, d, out') := monitor sort_values ta ticker rest [] in
           (st, d, (out ++ [PrintMonitoringError IndexError; Sleep 60])
                     ++ out').
Proof.
  intros Hlive Hfault Hstale.
  assert (indicator_frame sort_values ta (today tk) df = []) as Hempty.
  { pose proof (indicator_frame_same_base sort_values ta (today tk) df)
      as Hbase.
    rewrite filter_none in Hbase; [by apply Forall2_nil_inv_r in Hbase|].
    apply Forall_forall. intros r Hr.
    rewrite (sort_values_perm _ Hsort df) in Hr.
    rewrite Forall_forall in Hstale. auto. }
  assert (iteration sort_values ta ticker tk df = (Raise IndexError, [], out))
    as Hit.
  { unfold iteration. rewrite Hlive, Hfault. cbn [update_df].
    by rewrite Hempty. }
  split; [done|]. intros rest. cbn [monitor]. by rewrite Hit.
Qed.


End Sizes.

Lemma update_df_size_witness :
  (length store_with_gap
   ≤ length (update_df sort_values_stable store_with_gap (Some backfill))
   ≤ length store_with_gap + length backfill)%nat.
Proof.
  apply (update_df_size sort_values_stable sort_values_stable_sorts
           store_with_gap (Some backfill)).
  repeat constructor.
Defined.

Lemma iteration_stale_store_witness :
  iteration sort_values_stable toy_ta "AAPL" quiet_tick
    [price_row (day 0) 10 100; price_row (day 300) 11 100]
  = (Raise IndexError, [], []).
Proof.
  apply (iteration_stale_store sort_values_stable toy_ta "AAPL"
           sort_values_stable_sorts quiet_tick
           [price_row (day 0) 10 100; price_row (day 300) 11 100] []).
  - reflexivity.
  - reflexivity.
  - apply Forall_cons; split; [|apply Forall_cons; split; [|apply Forall_nil]];
      unfold in_window; change (today quiet_tick) with (day 730);
      unfold day, timedelta_days; simpl; lia.
Defined.

